(** * linkedin-search: column cleaners, ingestion pipeline and query builders

    A shallow embedding of [backend/column_cleaners.py],
    [backend/ingest_data.py] and [backend/search_service.py].

    Conventions.
    - A Python [str] is a [string]; its characters are the code points
      U+0000..U+00FF.  On that range [\d] is [0-9], [\s] and [str.strip]
      agree on the whitespace set below, and [re.IGNORECASE] only folds the
      ASCII letters.
    - A Python exception is a value of [exn]; code that may raise lives in
      the error monad [Exc].
    - [ast.literal_eval], the search store and the tabular source are
      external; the functions that use them take them as arguments. *)

From Stdlib Require Import Bool Arith List Ascii String ZArith NArith Lia.
Import ListNotations.
Local Open Scope string_scope.
Local Open Scope list_scope.

(* ------------------------------------------------------------------ *)
(** ** Characters *)
(* ------------------------------------------------------------------ *)

Module Char.

Definition code (c : ascii) : N := N_of_ascii c.

Definition between (lo hi : N) (c : ascii) : bool :=
  ((lo <=? code c) && (code c <=? hi))%N.

Definition at_code (n : N) (c : ascii) : bool := (code c =? n)%N.

(** [[a-z]], [[A-Z]] and [[a-zA-Z]]. *)
Definition lower (c : ascii) : bool := between 97 122 c.
Definition upper (c : ascii) : bool := between 65 90 c.
Definition letter (c : ascii) : bool := lower c || upper c.

(** [\d] on a [str] pattern. *)
Definition digit (c : ascii) : bool := between 48 57 c.

(** [\s], which is also what [str.strip()] removes:
    TAB LF VT FF CR, FS GS RS US, SPACE, NEL and NBSP. *)
Definition space (c : ascii) : bool :=
  between 9 13 c || between 28 31 c || at_code 32 c || at_code 133 c || at_code 160 c.

(** What [str.isdigit] accepts: the decimal digits and the superscripts
    two, three and one. *)
Definition isdigit (c : ascii) : bool :=
  digit c || at_code 178 c || at_code 179 c || at_code 185 c.

(** ASCII case folding, as [re.IGNORECASE] does for an ASCII literal. *)
Definition fold (c : ascii) : ascii :=
  if upper c then ascii_of_N (code c + 32) else c.

Definition eqb_nocase (a b : ascii) : bool := Ascii.eqb (fold a) (fold b).

End Char.

(* ------------------------------------------------------------------ *)
(** ** String primitives of Python *)
(* ------------------------------------------------------------------ *)

Module Str.

(** Truthiness of a [str]. *)
Definition truthy (s : string) : bool :=
  match s with EmptyString => false | String _ _ => true end.

Fixpoint lstrip (s : string) : string :=
  match s with
  | EmptyString => EmptyString
  | String c s' => if Char.space c then lstrip s' else s
  end.

Fixpoint rstrip (s : string) : string :=
  match s with
  | EmptyString => EmptyString
  | String c s' =>
      match rstrip s' with
      | EmptyString => if Char.space c then EmptyString else String c EmptyString
      | r => String c r
      end
  end.

(** [s.strip()] *)
Definition strip (s : string) : string := rstrip (lstrip s).

(** [s.startswith(p)] *)
Definition startswith (p s : string) : bool := String.prefix p s.

(** [s.endswith(p)] *)
Fixpoint endswith (p s : string) : bool :=
  String.eqb s p ||
  match s with
  | EmptyString => false
  | String _ s' => endswith p s'
  end.

(** [sub in s] *)
Fixpoint contains (sub s : string) : bool :=
  String.prefix sub s ||
  match s with
  | EmptyString => false
  | String _ s' => contains sub s'
  end.

(** [s.isdigit()] *)
Fixpoint all_chars (p : ascii -> bool) (s : string) : bool :=
  match s with
  | EmptyString => true
  | String c s' => p c && all_chars p s'
  end.

Definition isdigit (s : string) : bool := truthy s && all_chars Char.isdigit s.

(** [sep.join(l)] *)
Definition join (sep : string) (l : list string) : string := String.concat sep l.

(** [s.split(sep)] for a one-character separator: the pieces between the
    occurrences of [sep], empty pieces included. *)
Fixpoint split (sep : ascii) (s : string) : list string :=
  match s with
  | EmptyString => [EmptyString]
  | String c s' =>
      if Ascii.eqb c sep then EmptyString :: split sep s'
      else match split sep s' with
           | [] => [String c EmptyString]
           | p :: ps => String c p :: ps
           end
  end.

End Str.

(* ------------------------------------------------------------------ *)
(** ** The regular expressions of the [re] calls *)
(* ------------------------------------------------------------------ *)

Module Re.

Inductive regex : Type :=
| Void : regex
| Eps : regex
| Cls : (ascii -> bool) -> regex
| Seq : regex -> regex -> regex
| Alt : regex -> regex -> regex
| Star : regex -> regex.

Definition Chr (c : ascii) : regex := Cls (Ascii.eqb c).
Definition ChrI (c : ascii) : regex := Cls (Char.eqb_nocase c).
Definition Plus (r : regex) : regex := Seq r (Star r).
Definition Opt (r : regex) : regex := Alt r Eps.

(** [r{n}] *)
Fixpoint Rep (n : nat) (r : regex) : regex :=
  match n with O => Eps | S n' => Seq r (Rep n' r) end.

(** [r{0,n}] *)
Fixpoint UpTo (n : nat) (r : regex) : regex :=
  match n with O => Eps | S n' => Opt (Seq r (UpTo n' r)) end.

(** [r{lo,lo+extra}] *)
Definition Range (lo extra : nat) (r : regex) : regex := Seq (Rep lo r) (UpTo extra r).

(** A literal word, case-insensitively. *)
Fixpoint WordI (w : string) : regex :=
  match w with
  | EmptyString => Eps
  | String c w' => Seq (ChrI c) (WordI w')
  end.

Fixpoint nullable (r : regex) : bool :=
  match r with
  | Void => false
  | Eps => true
  | Cls _ => false
  | Seq a b => nullable a && nullable b
  | Alt a b => nullable a || nullable b
  | Star _ => true
  end.

Fixpoint deriv (c : ascii) (r : regex) : regex :=
  match r with
  | Void => Void
  | Eps => Void
  | Cls p => if p c then Eps else Void
  | Seq a b =>
      if nullable a then Alt (Seq (deriv c a) b) (deriv c b)
      else Seq (deriv c a) b
  | Alt a b => Alt (deriv c a) (deriv c b)
  | Star a => Seq (deriv c a) (Star a)
  end.

(** [re.fullmatch(r, s)] is not [None]. *)
Fixpoint fullmatch (r : regex) (s : string) : bool :=
  match s with
  | EmptyString => nullable r
  | String c s' => fullmatch (deriv c r) s'
  end.

(** [re.match(r, s)] is not [None]: some prefix of [s] is in [r]. *)
Fixpoint match_ (r : regex) (s : string) : bool :=
  nullable r ||
  match s with
  | EmptyString => false
  | String c s' => match_ (deriv c r) s'
  end.

(** [re.search(r, s)] is not [None]: [r] matches at some start position. *)
Fixpoint search (r : regex) (s : string) : bool :=
  match_ r s ||
  match s with
  | EmptyString => false
  | String _ s' => search r s'
  end.

(** [re.search(r + "$", s)]: from some start position [r] runs to the end of
    [s], or to just before a final line feed. *)
Definition LF : ascii := ascii_of_N 10.

Fixpoint search_dollar (r : regex) (s : string) : bool :=
  (fullmatch r s || fullmatch (Seq r (Chr LF)) s) ||
  match s with
  | EmptyString => false
  | String _ s' => search_dollar r s'
  end.

(** [re.sub(r"[...]", repl, s)] for a one-character class. *)
Fixpoint sub_cls (p : ascii -> bool) (repl s : string) : string :=
  match s with
  | EmptyString => EmptyString
  | String c s' =>
      if p c then repl ++ sub_cls p repl s' else String c (sub_cls p repl s')
  end.

(** [re.sub(r"[...]+", repl, s)]: every maximal run of class characters is
    replaced by one [repl]. *)
Fixpoint sub_plus (p : ascii -> bool) (repl s : string) : string :=
  match s with
  | EmptyString => EmptyString
  | String c s' =>
      if p c then
        match s' with
        | EmptyString => repl
        | String c' _ => if p c' then sub_plus p repl s' else repl ++ sub_plus p repl s'
        end
      else String c (sub_plus p repl s')
  end.

End Re.

(* ------------------------------------------------------------------ *)
(** ** column_cleaners.py: the text columns *)
(* ------------------------------------------------------------------ *)

Import Re.

Definition dig : regex := Cls Char.digit.
Definition d_or_comma : regex := Cls (fun c => Char.digit c || Ascii.eqb c ",").

(** [[a-zA-Z]:] *)
Definition re_drive : regex := Seq (Cls Char.letter) (Chr ":").

(** [\.(csv|txt|xlsx|json|zip)] under [re.IGNORECASE]; the call adds [$]. *)
Definition re_file_ext : regex :=
  Seq (Chr ".")
      (Alt (WordI "csv") (Alt (WordI "txt") (Alt (WordI "xlsx")
           (Alt (WordI "json") (WordI "zip"))))).

(** [[^a-zA-Z\s]] *)
Definition not_letter_space (c : ascii) : bool :=
  negb (Char.letter c || Char.space c).

(** [[^a-zA-Z\s,&-]] *)
Definition not_industry_char (c : ascii) : bool :=
  negb (Char.letter c || Char.space c
        || Ascii.eqb c "," || Ascii.eqb c "&" || Ascii.eqb c "-").

(** [\d+-\d+], [\d+\+], [\d+\.\d+] *)
Definition re_int_range : regex := Seq (Plus dig) (Seq (Chr "-") (Plus dig)).
Definition re_int_plus : regex := Seq (Plus dig) (Chr "+").
Definition re_decimal : regex := Seq (Plus dig) (Seq (Chr ".") (Plus dig)).

(** [\d{4}-\d{2}-\d{2}], [[\d,]+-[\d,]+], [<[\d,]+], [>[\d,]+] *)
Definition re_iso_date : regex :=
  Seq (Rep 4 dig) (Seq (Chr "-") (Seq (Rep 2 dig) (Seq (Chr "-") (Rep 2 dig)))).
Definition re_comma_range : regex :=
  Seq (Plus d_or_comma) (Seq (Chr "-") (Plus d_or_comma)).
Definition re_less : regex := Seq (Chr "<") (Plus d_or_comma).
Definition re_greater : regex := Seq (Chr ">") (Plus d_or_comma).

(** [\+\d{7,15}] *)
Definition re_phone : regex := Seq (Chr "+") (Range 7 8 dig).

(** [\d{4}-\d{2}(-\d{2})?] *)
Definition re_year_month : regex :=
  Seq (Rep 4 dig) (Seq (Chr "-") (Seq (Rep 2 dig) (Opt (Seq (Chr "-") (Rep 2 dig))))).

(** [text.startswith("[") or text.startswith("{") or text == "[]"] *)
Definition looks_serialized (text : string) : bool :=
  Str.startswith "[" text || Str.startswith "{" text || String.eqb text "[]".

Definition clean_full_name (text : string) : string :=
  if negb (Str.truthy text) then ""
  else
    let text := Str.strip text in
    if Str.contains "\" text || Str.contains "/" text
       || search re_drive text
       || search_dollar re_file_ext text
    then ""
    else
      let cleaned := sub_cls not_letter_space "" text in
      let cleaned := sub_plus Char.space " " cleaned in
      if Str.truthy cleaned then cleaned else "".

Definition clean_job_title (text : string) : string :=
  if negb (Str.truthy text) then ""
  else
    let text := Str.strip text in
    if looks_serialized text then "" else text.

Definition clean_industry (text : string) : string :=
  if negb (Str.truthy text) then ""
  else
    let text := Str.strip text in
    if looks_serialized text || search dig text then ""
    else if search (Cls not_industry_char) text then ""
    else
      let cleaned := sub_plus Char.space " " text in
      Str.strip cleaned.

Definition clean_summary (text : string) : string :=
  if negb (Str.truthy text) then ""
  else
    let text := Str.strip text in
    if looks_serialized text then ""
    else if fullmatch re_int_range text
            || fullmatch re_int_plus text
            || fullmatch re_decimal text
    then ""
    else text.

Definition clean_location_country (text : string) : string :=
  if negb (Str.truthy text) then ""
  else
    let text := Str.strip text in
    if looks_serialized text then ""
    else if fullmatch re_iso_date text then ""
    else if fullmatch re_comma_range text then ""
    else if fullmatch re_less text || fullmatch re_greater text then ""
    else if fullmatch re_decimal text then ""
    else if Nat.eqb (String.length text) 1 then ""
    else text.

Definition clean_job_summary (text : string) : string :=
  if negb (Str.truthy text) then ""
  else
    let text := Str.strip text in
    if Nat.eqb (String.length text) 1
       || Str.isdigit text
       || fullmatch re_year_month text
    then ""
    else text.

(* ------------------------------------------------------------------ *)
(** ** Exceptions *)
(* ------------------------------------------------------------------ *)

(** The exceptions that occur; all of them are subclasses of [Exception],
    so [except Exception] catches every value of this type. *)
Inductive exn : Type :=
| ValueError (msg : string)
| SyntaxError (msg : string)
| TypeError (msg : string)
| AttributeError (msg : string)
| KeyError (key : string)
| StoreError (msg : string).

Definition Exc (A : Type) : Type := (exn + A)%type.

Definition ret {A : Type} (a : A) : Exc A := inr a.
Definition raise {A : Type} (e : exn) : Exc A := inl e.

Definition bind {A B : Type} (m : Exc A) (k : A -> Exc B) : Exc B :=
  match m with
  | inl e => inl e
  | inr a => k a
  end.

(** [try: m  except Exception: handler] *)
Definition try_except {A : Type} (m : Exc A) (handler : exn -> Exc A) : Exc A :=
  match m with
  | inl e => handler e
  | inr a => inr a
  end.

Declare Scope exc_scope.
Delimit Scope exc_scope with exc.
Notation "x <- m ;; k" := (bind m (fun x => k))
  (at level 61, m at next level, right associativity) : exc_scope.
Local Open Scope exc_scope.

(** [for x in l: acc = body(acc, x)], stopping at the first exception. *)
Fixpoint for_each {A S : Type} (body : S -> A -> Exc S) (l : list A) (acc : S) : Exc S :=
  match l with
  | [] => ret acc
  | x :: l' => acc' <- body acc x ;; for_each body l' acc'
  end.

(** A dict in insertion order; [d.get(k)], [d[k]], [k in d] and [d[k] = v]. *)
Fixpoint assoc {V : Type} (k : string) (d : list (string * V)) : option V :=
  match d with
  | [] => None
  | (k', v) :: d' => if String.eqb k' k then Some v else assoc k d'
  end.

Fixpoint dict_set {V : Type} (k : string) (v : V) (d : list (string * V)) : list (string * V) :=
  match d with
  | [] => [(k, v)]
  | (k', v') :: d' =>
      if String.eqb k' k then (k, v) :: d' else (k', v') :: dict_set k v d'
  end.

Definition subscript {V : Type} (d : list (string * V)) (k : string) : Exc V :=
  match assoc k d with
  | Some v => ret v
  | None => raise (KeyError k)
  end.

(** [x in l] for a list of strings. *)
Definition mem (x : string) (l : list string) : bool := existsb (String.eqb x) l.

(* ------------------------------------------------------------------ *)
(** ** Values of [ast.literal_eval] *)
(* ------------------------------------------------------------------ *)

(** The objects a literal evaluates to.  [PDict] lists the items of the
    dict in insertion order, its keys pairwise different; [POther] stands
    for the kinds the cleaners never look into (float, complex, bytes,
    tuple, set, Ellipsis). *)
#[warnings="-register-all"]
Inductive pyobj : Type :=
| PStr (s : string)
| PInt (z : Z)
| PBool (b : bool)
| PNone
| PList (items : list pyobj)
| PDict (items : list (pyobj * pyobj))
| POther (repr : string).

Definition isinstance_str (o : pyobj) : bool :=
  match o with PStr _ => true | _ => false end.
Definition isinstance_list (o : pyobj) : bool :=
  match o with PList _ => true | _ => false end.
Definition isinstance_dict (o : pyobj) : bool :=
  match o with PDict _ => true | _ => false end.

(** The item of a dict whose key equals the [str] [k]; only a [str] key
    compares equal to a [str]. *)
Fixpoint lookup_str (k : string) (items : list (pyobj * pyobj)) : option pyobj :=
  match items with
  | [] => None
  | (PStr k', v) :: items' => if String.eqb k' k then Some v else lookup_str k items'
  | _ :: items' => lookup_str k items'
  end.

(** [o.get(k)]: an attribute of dicts only; [None] when the key is absent. *)
Definition py_get (o : pyobj) (k : string) : Exc pyobj :=
  match o with
  | PDict items =>
      match lookup_str k items with
      | Some v => ret v
      | None => ret PNone
      end
  | _ => raise (AttributeError "object has no attribute 'get'")
  end.

(** [o.strip()]: an attribute of [str] (among the kinds above). *)
Definition py_strip (o : pyobj) : Exc string :=
  match o with
  | PStr s => ret (Str.strip s)
  | _ => raise (AttributeError "object has no attribute 'strip'")
  end.

(** [for item in o] *)
Definition py_iter (o : pyobj) : Exc (list pyobj) :=
  match o with
  | PList items => ret items
  | _ => raise (TypeError "object is not iterable")
  end.

(* ------------------------------------------------------------------ *)
(** ** column_cleaners.py: the list columns and the dispatcher *)
(* ------------------------------------------------------------------ *)

Section Cleaners.

(** [ast.literal_eval]: the object, or the exception it raises. *)
Variable literal_eval : string -> Exc pyobj.

(** The body of the loop of [clean_education]. *)
Definition education_item (school_names : list string) (item : pyobj) : Exc (list string) :=
  if isinstance_dict item then
    school <- py_get item "school" ;;
    if isinstance_dict school then
      name <- py_get school "name" ;;
      if isinstance_str name then
        stripped <- py_strip name ;;
        if Str.truthy stripped then
          stripped <- py_strip name ;;
          ret (school_names ++ [stripped])
        else ret school_names
      else ret school_names
    else ret school_names
  else ret school_names.

(** The list [school_names] when the loop over [data] ends. *)
Definition education_names (data : pyobj) : Exc (list string) :=
  items <- py_iter data ;;
  for_each education_item items [].

(** The part of the list cleaners before their loop: [Some data] when the
    loop is reached, [None] when the cleaner has returned [""]. *)
Definition parsed_list (text : string) : option pyobj :=
  if negb (Str.truthy text) then None
  else
    let text := Str.strip text in
    if negb (Str.startswith "[" text && Str.endswith "]" text) then None
    else
      match literal_eval text with
      | inl _ => None
      | inr data => if negb (isinstance_list data) then None else Some data
      end.

Definition clean_education (text : string) : Exc string :=
  match parsed_list text with
  | None => ret ""
  | Some data =>
      school_names <- education_names data ;;
      ret (Str.join " | " school_names)
  end.

(** The body of the loop of [clean_experience]. *)
Definition experience_item (results : list string) (item : pyobj) : Exc (list string) :=
  if negb (isinstance_dict item) then ret results
  else
    let company_name := "" in
    let title_name := "" in
    company <- py_get item "company" ;;
    company_name <-
      (if isinstance_dict company then
         name <- py_get company "name" ;;
         if isinstance_str name then py_strip name else ret company_name
       else ret company_name) ;;
    title <- py_get item "title" ;;
    title_name <-
      (if isinstance_dict title then
         name <- py_get title "name" ;;
         if isinstance_str name then py_strip name else ret title_name
       else ret title_name) ;;
    if Str.truthy company_name && Str.truthy title_name then
      ret (results ++ [(company_name ++ " : " ++ title_name)%string])
    else if Str.truthy company_name then ret (results ++ [company_name])
    else if Str.truthy title_name then ret (results ++ [title_name])
    else ret results.

Definition experience_results (data : pyobj) : Exc (list string) :=
  items <- py_iter data ;;
  for_each experience_item items [].

Definition clean_experience (text : string) : Exc string :=
  match parsed_list text with
  | None => ret ""
  | Some data =>
      results <- experience_results data ;;
      ret (Str.join " | " results)
  end.

(** The body of the loop of [clean_skills]. *)
Definition skills_item (skills : list string) (item : pyobj) : Exc (list string) :=
  if isinstance_str item then
    item_clean <- py_strip item ;;
    if negb (Str.truthy item_clean) then ret skills
    else if fullmatch re_phone item_clean then ret skills
    else ret (skills ++ [item_clean])
  else ret skills.

Definition skills_list (data : pyobj) : Exc (list string) :=
  items <- py_iter data ;;
  for_each skills_item items [].

Definition clean_skills (text : string) : Exc string :=
  match parsed_list text with
  | None => ret ""
  | Some data =>
      skills <- skills_list data ;;
      ret (Str.join " | " skills)
  end.

(** A cleaning function as [get_cleaner] hands it out. *)
Definition cleaner : Type := string -> Exc string.

(** The text cleaners call nothing that can raise on a [str]. *)
Definition total (f : string -> string) : cleaner := fun text => ret (f text).

Definition cleaners_table : list (string * cleaner) :=
  [ ("full_name", total clean_full_name);
    ("job_title", total clean_job_title);
    ("industry", total clean_industry);
    ("summary", total clean_summary);
    ("location_country", total clean_location_country);
    ("education", clean_education);
    ("experience", clean_experience);
    ("skills", clean_skills);
    ("job_summary", total clean_job_summary) ].

Definition get_cleaner (column_name : string) : Exc cleaner :=
  match assoc column_name cleaners_table with
  | None => raise (ValueError ("No cleaner found for column '" ++ column_name ++ "'")%string)
  | Some f => ret f
  end.

(** [get_cleaner(column_name)(text)] *)
Definition normalize (column_name text : string) : Exc string :=
  f <- get_cleaner column_name ;;
  f text.

End Cleaners.

(* ------------------------------------------------------------------ *)
(** ** A reader for a fragment of the literal syntax *)
(* ------------------------------------------------------------------ *)

(** [ast.literal_eval] itself is the Python library's, and the theorems
    below hold for any function in its place.  To run the cleaners on
    concrete cells, [Literal.eval] reads the literals the data uses: list
    displays, dict displays with string keys, strings in single or double
    quotes without backslash, decimal integers, [None], [True] and [False],
    separated by commas and spaces.  On these it returns what
    [ast.literal_eval] returns.  It raises on every other text, also on
    the literals outside this fragment that [ast.literal_eval] accepts; it
    is used on texts of the fragment only. *)
Module Literal.

Fixpoint skip_blanks (s : string) : string :=
  match s with
  | String c s' => if Ascii.eqb c " " then skip_blanks s' else s
  | EmptyString => s
  end.

Definition dquote : ascii := ascii_of_N 34.

(** A character that stands for itself inside quotes. *)
Definition plain (q c : ascii) : bool :=
  negb (Ascii.eqb c q) && negb (Ascii.eqb c "\")
  && (Char.between 32 126 c || Char.between 161 255 c).

(** The text up to the closing quote [q], and what follows it. *)
Fixpoint quoted (q : ascii) (s : string) : option (string * string) :=
  match s with
  | EmptyString => None
  | String c s' =>
      if Ascii.eqb c q then Some (EmptyString, s')
      else if plain q c then
        match quoted q s' with
        | Some (body, rest) => Some (String c body, rest)
        | None => None
        end
      else None
  end.

Fixpoint digits (s : string) : string * string :=
  match s with
  | String c s' =>
      if Char.digit c then let (ds, rest) := digits s' in (String c ds, rest)
      else (EmptyString, s)
  | EmptyString => (EmptyString, EmptyString)
  end.

Fixpoint decimal (acc : Z) (ds : string) : Z :=
  match ds with
  | EmptyString => acc
  | String c ds' => decimal (10 * acc + Z.of_N (Char.code c - 48)) ds'
  end.

(** An identifier character: a keyword must not run on into one. *)
Definition ident_char (c : ascii) : bool :=
  Char.letter c || Char.digit c || Ascii.eqb c "_".

Definition keyword (w : string) (v : pyobj) (s : string) : option (pyobj * string) :=
  if String.prefix w s then
    let rest := String.substring (String.length w) (String.length s - String.length w) s in
    match rest with
    | String c _ => if ident_char c then None else Some (v, rest)
    | EmptyString => Some (v, rest)
    end
  else None.

(** A dict display evaluates its items left to right; a repeated key keeps
    its first position and takes the last value. *)
Fixpoint set_item (k : string) (v : pyobj) (items : list (pyobj * pyobj)) : list (pyobj * pyobj) :=
  match items with
  | [] => [(PStr k, v)]
  | (PStr k', v') :: items' =>
      if String.eqb k' k then (PStr k, v) :: items'
      else (PStr k', v') :: set_item k v items'
  | kv :: items' => kv :: set_item k v items'
  end.

Definition build_dict (pairs : list (string * pyobj)) : pyobj :=
  PDict (fold_left (fun items kv => set_item (fst kv) (snd kv) items) pairs []).

Fixpoint value (fuel : nat) (s : string) {struct fuel} : option (pyobj * string) :=
  match fuel with
  | O => None
  | S fuel' =>
      match skip_blanks s with
      | EmptyString => None
      | String c rest =>
          if Ascii.eqb c "[" then
            match elements fuel' rest with
            | Some (vs, rest') => Some (PList vs, rest')
            | None => None
            end
          else if Ascii.eqb c "{" then
            match pairs fuel' rest with
            | Some (kvs, rest') => Some (build_dict kvs, rest')
            | None => None
            end
          else if Ascii.eqb c "'" || Ascii.eqb c dquote then
            match quoted c rest with
            | Some (body, rest') => Some (PStr body, rest')
            | None => None
            end
          else if Char.digit c then
            let (ds, rest') := digits (String c rest) in
            match rest' with
            | String c' _ =>
                if ident_char c' || Ascii.eqb c' "." then None
                else if Ascii.eqb c "0" && negb (String.eqb ds "0") then None
                else Some (PInt (decimal 0 ds), rest')
            | EmptyString =>
                if Ascii.eqb c "0" && negb (String.eqb ds "0") then None
                else Some (PInt (decimal 0 ds), rest')
            end
          else
            match keyword "None" PNone (String c rest) with
            | Some r => Some r
            | None =>
                match keyword "True" (PBool true) (String c rest) with
                | Some r => Some r
                | None => keyword "False" (PBool false) (String c rest)
                end
            end
      end
  end

(** The elements after an opening bracket or a comma, up to the closing
    bracket; a comma may precede the closing bracket. *)
with elements (fuel : nat) (s : string) {struct fuel} : option (list pyobj * string) :=
  match fuel with
  | O => None
  | S fuel' =>
      match skip_blanks s with
      | EmptyString => None
      | String c rest =>
          if Ascii.eqb c "]" then Some ([], rest)
          else
            match value fuel' (String c rest) with
            | None => None
            | Some (v, s1) =>
                match skip_blanks s1 with
                | String c1 rest1 =>
                    if Ascii.eqb c1 "]" then Some ([v], rest1)
                    else if Ascii.eqb c1 "," then
                      match elements fuel' rest1 with
                      | Some (vs, s2) => Some (v :: vs, s2)
                      | None => None
                      end
                    else None
                | EmptyString => None
                end
            end
      end
  end

(** The [key: value] items after an opening brace or a comma. *)
with pairs (fuel : nat) (s : string) {struct fuel} : option (list (string * pyobj) * string) :=
  match fuel with
  | O => None
  | S fuel' =>
      match skip_blanks s with
      | EmptyString => None
      | String c rest =>
          if Ascii.eqb c "}" then Some ([], rest)
          else
            match value fuel' (String c rest) with
            | Some (PStr k, s1) =>
                match skip_blanks s1 with
                | String c1 rest1 =>
                    if Ascii.eqb c1 ":" then
                      match value fuel' rest1 with
                      | None => None
                      | Some (v, s2) =>
                          match skip_blanks s2 with
                          | String c2 rest2 =>
                              if Ascii.eqb c2 "}" then Some ([(k, v)], rest2)
                              else if Ascii.eqb c2 "," then
                                match pairs fuel' rest2 with
                                | Some (kvs, s3) => Some ((k, v) :: kvs, s3)
                                | None => None
                                end
                              else None
                          | EmptyString => None
                          end
                      end
                    else None
                | EmptyString => None
                end
            | _ => None
            end
      end
  end.

Definition eval (text : string) : Exc pyobj :=
  match value (S (String.length text)) text with
  | Some (v, rest) =>
      match skip_blanks rest with
      | EmptyString => ret v
      | String _ _ => raise (SyntaxError "invalid syntax")
      end
  | None => raise (SyntaxError "invalid syntax")
  end.

End Literal.

(* ------------------------------------------------------------------ *)
(** ** ingest_data.py *)
(* ------------------------------------------------------------------ *)

Module Ingest.

(** [columns] and [KEYWORD_COLUMNS] of ingest_data.py. *)
Definition columns : list string :=
  [ "full_name"; "job_title"; "industry"; "summary";
    "location_country"; "education"; "experience";
    "skills"; "job_summary" ].

Definition KEYWORD_COLUMNS : list string := ["education"; "experience"; "skills"].

(** A cell of the frame [pd.read_csv] returns: a [str], or NaN where the
    file has nothing. *)
Inductive Cell : Type :=
| CStr (s : string)
| CNaN.

(** [str(cell)] *)
Definition py_str (c : Cell) : string :=
  match c with
  | CStr s => s
  | CNaN => "nan"
  end.

Definition Cell_eqb (a b : Cell) : bool :=
  match a, b with
  | CStr s, CStr t => String.eqb s t
  | CNaN, CNaN => true
  | _, _ => false
  end.

(** A row of the frame, the nine columns that [ingest] reads. *)
Record Row : Type := mkRow {
  r_full_name : Cell;
  r_job_title : Cell;
  r_industry : Cell;
  r_summary : Cell;
  r_location_country : Cell;
  r_education : Cell;
  r_experience : Cell;
  r_skills : Cell;
  r_job_summary : Cell
}.

Definition row_items (row : Row) : list (string * Cell) :=
  [ ("full_name", r_full_name row);
    ("job_title", r_job_title row);
    ("industry", r_industry row);
    ("summary", r_summary row);
    ("location_country", r_location_country row);
    ("education", r_education row);
    ("experience", r_experience row);
    ("skills", r_skills row);
    ("job_summary", r_job_summary row) ].

(** [str(row.get(col, ""))] *)
Definition row_get_str (row : Row) (col : string) : string :=
  match assoc col (row_items row) with
  | Some c => py_str c
  | None => ""
  end.

(** The cells [drop_duplicates(subset=columns)] compares; NaN equals NaN
    there. *)
Definition subset_key (subset : list string) (row : Row) : list (option Cell) :=
  map (fun col => assoc col (row_items row)) subset.

Definition option_Cell_eqb (a b : option Cell) : bool :=
  match a, b with
  | Some x, Some y => Cell_eqb x y
  | None, None => true
  | _, _ => false
  end.

Fixpoint key_eqb (k1 k2 : list (option Cell)) : bool :=
  match k1, k2 with
  | [], [] => true
  | a :: k1', b :: k2' => option_Cell_eqb a b && key_eqb k1' k2'
  | _, _ => false
  end.

(** [df.drop_duplicates(subset=...)], with pandas' default [keep='first']:
    a row goes when an earlier row has the same key. *)
Fixpoint drop_duplicates_from (subset : list string) (seen : list (list (option Cell)))
         (df : list Row) : list Row :=
  match df with
  | [] => []
  | row :: df' =>
      let k := subset_key subset row in
      if existsb (key_eqb k) seen then drop_duplicates_from subset seen df'
      else row :: drop_duplicates_from subset (k :: seen) df'
  end.

Definition drop_duplicates (subset : list string) (df : list Row) : list Row :=
  drop_duplicates_from subset [] df.

(** A field of an indexed document. *)
Inductive FieldValue : Type :=
| Text (s : string)
| Keywords (items : list string).

Definition Doc : Type := list (string * FieldValue).

(** [[item.strip() for item in cleaned_text.split("|") if item.strip()]] *)
Definition split_items (cleaned_text : string) : list string :=
  map Str.strip
      (filter (fun item => Str.truthy (Str.strip item)) (Str.split "|" cleaned_text)).

Section Pipeline.

Variable literal_eval : string -> Exc pyobj.

(** The body of [for col in columns]. *)
Definition doc_column (cleaners : list (string * cleaner)) (row : Row)
           (doc : Doc) (col : string) : Exc Doc :=
  f <- subscript cleaners col ;;
  cleaned_text <- f (row_get_str row col) ;;
  if mem col KEYWORD_COLUMNS then
    if Str.truthy cleaned_text then ret (dict_set col (Keywords (split_items cleaned_text)) doc)
    else ret (dict_set col (Keywords []) doc)
  else ret (dict_set col (Text cleaned_text) doc).

(** The document of one row, as built inside the [try]. *)
Definition row_doc (cleaners : list (string * cleaner)) (row : Row) : Exc Doc :=
  for_each (doc_column cleaners row) columns [].

(** [{col: get_cleaner(col) for col in columns}] *)
Definition cleaners_for (cols : list string) : Exc (list (string * cleaner)) :=
  for_each (fun d col => f <- get_cleaner literal_eval col ;; ret (dict_set col f d)) cols [].

(** The loop over the rows: a row whose document cannot be built is
    reported and skipped; the others are handed to [es.index], in order. *)
Fixpoint index_rows (cleaners : list (string * cleaner)) (df : list Row) : list Doc :=
  match df with
  | [] => []
  | row :: df' =>
      match row_doc cleaners row with
      | inr doc => doc :: index_rows cleaners df'
      | inl _ => index_rows cleaners df'
      end
  end.

(** [ingest], from the frame read from the file to the documents handed to
    [es.index]. *)
Definition ingest (df : list Row) : Exc (list Doc) :=
  let df := drop_duplicates columns df in
  cleaners <- cleaners_for columns ;;
  ret (index_rows cleaners df).

End Pipeline.

End Ingest.

(* ------------------------------------------------------------------ *)
(** ** [repr] of a list of strings, as an f-string prints it *)
(* ------------------------------------------------------------------ *)

Module Repr.

Definition hex_digit (n : N) : ascii :=
  if (n <? 10)%N then ascii_of_N (48 + n) else ascii_of_N (87 + n).

(** [\xhh] *)
Definition hex_escape (c : ascii) : string :=
  String "\" (String "x"
    (String (hex_digit (Char.code c / 16)) (String (hex_digit (Char.code c mod 16)) EmptyString))).

(** [str.isprintable] above U+007F: the C1 controls, the no-break space and
    the soft hyphen are not. *)
Definition printable_high (c : ascii) : bool :=
  negb (Char.between 128 160 c || Char.at_code 173 c).

Definition dquote : ascii := ascii_of_N 34.

Definition quote_for (s : string) : ascii :=
  if Str.contains "'" s && negb (Str.contains (String dquote EmptyString) s)
  then dquote else "'"%char.

Definition repr_char (q c : ascii) : string :=
  if Ascii.eqb c q || Ascii.eqb c "\" then String "\" (String c EmptyString)
  else if Char.at_code 9 c then String "\" "t"
  else if Char.at_code 10 c then String "\" "n"
  else if Char.at_code 13 c then String "\" "r"
  else if Char.between 0 31 c || Char.at_code 127 c then hex_escape c
  else if Char.between 32 126 c then String c EmptyString
  else if printable_high c then String c EmptyString
  else hex_escape c.

Fixpoint repr_body (q : ascii) (s : string) : string :=
  match s with
  | EmptyString => EmptyString
  | String c s' => repr_char q c ++ repr_body q s'
  end.

(** [repr(s)] *)
Definition repr_str (s : string) : string :=
  let q := quote_for s in
  String q (repr_body q s ++ String q EmptyString).

(** [repr(l)] for a list of [str] *)
Definition repr_list (l : list string) : string :=
  "[" ++ Str.join ", " (map repr_str l) ++ "]".

End Repr.

(* ------------------------------------------------------------------ *)
(** ** search_service.py *)
(* ------------------------------------------------------------------ *)

Module Search.

Definition TEXT_COLUMNS : list string :=
  [ "full_name"; "job_title"; "industry"; "summary";
    "location_country"; "job_summary" ].

Definition KEYWORD_COLUMNS : list string := [ "education"; "experience"; "skills" ].

Definition ALL_COLUMNS : list string := TEXT_COLUMNS ++ KEYWORD_COLUMNS.

(** [{"match": {field: query}}] and [{"term": {field: query}}] *)
Inductive Clause : Type :=
| Match (field query : string)
| Term (field query : string).

(** The ["bool"] object of the body. *)
Inductive BoolQuery : Type :=
| Should (should : list Clause) (minimum_should_match : Z)
| Must (must : list Clause).

(** The ["highlight"] object; [hl_fields] is a dict whose values are all
    the empty dict. *)
Record Highlight : Type := mkHighlight {
  hl_fields : list (string * unit);
  pre_tags : list string;
  post_tags : list string
}.

(** The body of the request to the store. *)
Record Body : Type := mkBody {
  query : BoolQuery;
  highlight : Highlight;
  size : Z
}.

(** A hit of the response, and the response as the functions read it:
    [resp["hits"]["hits"]] and [resp["hits"]["total"]["value"]]. *)
Record Hit : Type := mkHit {
  _source : list (string * Ingest.FieldValue);
  hit_highlight : option (list (string * list string))
}.

Record Response : Type := mkResponse {
  hits : list Hit;
  total : Z
}.

(** A field of a returned document: a stored field, or ["_highlight"]. *)
Inductive ResultValue : Type :=
| Stored (v : Ingest.FieldValue)
| Fragments (h : list (string * list string)).

Definition Result : Type := list (string * ResultValue).

(** The value of an argument with a default. *)
Definition arg {A : Type} (default : A) (given : option A) : A :=
  match given with
  | Some a => a
  | None => default
  end.

(** The loop over the hits, the same in both functions. *)
Definition hit_result (hit : Hit) : Result :=
  let doc := map (fun kv => (fst kv, Stored (snd kv))) (_source hit) in
  match hit_highlight hit with
  | Some h => dict_set "_highlight" (Fragments h) doc
  | None => doc
  end.

(** [{col: {} for col in cols if col in TEXT_COLUMNS}] *)
Definition highlight_fields (cols : list string) : list (string * unit) :=
  fold_left (fun fields col => dict_set col tt fields)
            (filter (fun col => mem col TEXT_COLUMNS) cols) [].

Section Store.

(** [es.search(index=INDEX_NAME, body=body)]: the response of the store, or
    the exception it raises. *)
Variable es_search : Body -> Exc Response.

(** What a call does: the bodies it sent to the store, in order, and its
    result or the exception it raised. *)
Definition Call (A : Type) : Type := (list Body * Exc A)%type.

(** The tail of both functions, from [es.search] on. *)
Definition run_search (body : Body) : Call (list Result * Z) :=
  ([body],
   resp <- es_search body ;;
   ret (map hit_result (hits resp), total resp)).

Definition search_columns (columns : list string) (query : string) (size : option Z)
  : Call (list Result * Z) :=
  let size := arg 10%Z size in
  if negb (forallb (fun col => mem col ALL_COLUMNS) columns) then
    let invalid := filter (fun col => negb (mem col ALL_COLUMNS)) columns in
    ([], raise (ValueError ("Invalid columns: " ++ Repr.repr_list invalid)%string))
  else
    let should_clauses :=
      fold_left (fun clauses col =>
                   if mem col TEXT_COLUMNS then clauses ++ [Match col query]
                   else clauses ++ [Term col query])
                columns [] in
    let body :=
      {| query := Should should_clauses 1;
         highlight := {| hl_fields := highlight_fields columns;
                         pre_tags := ["<em>"];
                         post_tags := ["</em>"] |};
         size := size |} in
    run_search body.

(** The body of [for field, value in field_queries.items()]. *)
Definition must_clause (must_clauses : list Clause) (item : string * string)
  : Exc (list Clause) :=
  let (field, value) := item in
  if negb (mem field ALL_COLUMNS) then
    raise (ValueError ("Invalid field: " ++ field)%string)
  else if mem field TEXT_COLUMNS then ret (must_clauses ++ [Match field value])
  else ret (must_clauses ++ [Term field value]).

(** [field_queries] is a dict, given by its items in insertion order. *)
Definition advanced_search (field_queries : list (string * string)) (size : option Z)
  : Call (list Result * Z) :=
  let size := arg 10%Z size in
  match field_queries with
  | [] => ([], raise (ValueError "No search fields provided"))
  | _ :: _ =>
      match for_each must_clause field_queries [] with
      | inl e => ([], inl e)
      | inr must_clauses =>
          let body :=
            {| query := Must must_clauses;
               highlight := {| hl_fields := highlight_fields (map fst field_queries);
                               pre_tags := ["<em>"];
                               post_tags := ["</em>"] |};
               size := size |} in
          run_search body
      end
  end.

End Store.

End Search.

(* ------------------------------------------------------------------ *)
(** ** Notions used in the statements *)
(* ------------------------------------------------------------------ *)

(** An ASCII letter or the space character U+0020. *)
Definition letter_or_blank (c : ascii) : bool := Char.letter c || Ascii.eqb c " ".

(** The first character of [s] is whitespace. *)
Definition head_space (s : string) : bool :=
  match s with
  | EmptyString => false
  | String c _ => Char.space c
  end.

(** Every whitespace character is a blank, and no two blanks are adjacent:
    what [re.sub(r"\s+", " ", s)] returns. *)
Fixpoint collapsed (s : string) : bool :=
  match s with
  | EmptyString => true
  | String c s' =>
      (if Char.space c then Ascii.eqb c " " && negb (head_space s') else true)
      && collapsed s'
  end.

(** The shape of four of the text cleaners: strip, then drop the value
    when a test rejects it. *)
Definition keep_unless (reject : string -> bool) (text : string) : string :=
  if negb (Str.truthy text) then ""
  else let text := Str.strip text in if reject text then "" else text.

(** The characters [clean_industry] lets through. *)
Definition industry_char (c : ascii) : bool := negb (not_industry_char c).

(** The text columns whose cleaner returns its own output unchanged. *)
Definition stable_columns : list string :=
  ["job_title"; "industry"; "summary"; "location_country"; "job_summary"].

(** The list columns, whose cleaner reads a list literal and returns the
    items joined by [" | "]. *)
Definition list_columns : list string := ["education"; "experience"; "skills"].

(** The bar does not occur in [s]. *)
Definition bar_free (s : string) : bool := negb (Str.contains "|" s).

(** A name as the loops append it: stripped, and not empty. *)
Definition stripped_name (s : string) : Prop := Str.strip s = s /\ Str.truthy s = true.

(** The list [school_names] that [clean_education] joins, empty when it
    returns before its loop. *)
Definition education_extracted (literal_eval : string -> Exc pyobj) (text : string)
  : list string :=
  match parsed_list literal_eval text with
  | None => []
  | Some data =>
      match education_names data with
      | inr school_names => school_names
      | inl _ => []
      end
  end.

(** What [ingest] stores for a list column, from its cleaned text. *)
Definition keyword_items (cleaned_text : string) : list string :=
  if Str.truthy cleaned_text then Ingest.split_items cleaned_text else [].


(** A store that finds nothing. *)
Definition empty_store (body : Search.Body) : Exc Search.Response :=
  ret {| Search.hits := []; Search.total := 0 |}.

(** A column the search service declares. *)
Definition declared (col : string) : Prop := mem col Search.ALL_COLUMNS = true.

(** The columns of a request that are not declared, in request order. *)
Definition invalid_columns (columns : list string) : list string :=
  filter (fun col => negb (mem col Search.ALL_COLUMNS)) columns.

(** The body [search_columns] sends for declared columns. *)
Definition or_body (columns : list string) (q : string) (size : option Z) : Search.Body :=
  {| Search.query :=
       Search.Should
         (fold_left (fun clauses col =>
                       if mem col Search.TEXT_COLUMNS then clauses ++ [Search.Match col q]
                       else clauses ++ [Search.Term col q])
                    columns []) 1;
     Search.highlight := {| Search.hl_fields := Search.highlight_fields columns;
                            Search.pre_tags := ["<em>"];
                            Search.post_tags := ["</em>"] |};
     Search.size := Search.arg 10%Z size |}.

(* ------------------------------------------------------------------ *)
(** ** The education rule, in the words of the specification *)
(* ------------------------------------------------------------------ *)

Module EducationSpec.

(** The stripped name of an element that is a mapping containing a
    [school] mapping with a string [name]; no other element has one. *)
Definition school_name (item : pyobj) : option string :=
  match item with
  | PDict fields =>
      match lookup_str "school" fields with
      | Some (PDict school) =>
          match lookup_str "name" school with
          | Some (PStr name) => Some (Str.strip name)
          | _ => None
          end
      | _ => None
      end
  | _ => None
  end.

(** The ordered projection of those names. *)
Fixpoint projection (items : list pyobj) : list string :=
  match items with
  | [] => []
  | item :: items' =>
      match school_name item with
      | Some n => n :: projection items'
      | None => projection items'
      end
  end.

End EducationSpec.

(* ------------------------------------------------------------------ *)
(** ** Rows for the examples *)
(* ------------------------------------------------------------------ *)

Module IngestExamples.

Import Ingest.

Definition jane : Row :=
  mkRow (CStr "Jane Doe") (CStr "Engineer") (CStr "Software")
        (CStr "Loves tech") (CStr "Germany")
        (CStr "[{'school': {'name': 'MIT'}}, {'school': {'name': 'Cairo Univ'}}]")
        (CStr "[{'company': {'name': 'Acme'}, 'title': {'name': 'CEO'}}]")
        (CStr "['Python', '+14155550100']")
        (CStr "Builds search engines").


Definition jane_doc : Doc :=
  [ ("full_name", Text "Jane Doe"); ("job_title", Text "Engineer");
    ("industry", Text "Software"); ("summary", Text "Loves tech");
    ("location_country", Text "Germany");
    ("education", Keywords ["MIT"; "Cairo Univ"]);
    ("experience", Keywords ["Acme : CEO"]);
    ("skills", Keywords ["Python"]);
    ("job_summary", Text "Builds search engines") ].

(** A profile whose school name has a bar in it. *)
Definition jean : Row :=
  mkRow (CStr "Jean Dupont") (CStr "Teacher") (CStr "Education")
        (CStr "Teaches") (CStr "France")
        (CStr "[{'school': {'name': 'Lycee Hoche | Annexe'}}]")
        (CStr "[]") (CStr "[]") (CStr "Teaches mathematics").

End IngestExamples.

(* ------------------------------------------------------------------ *)
(** ** ingest_data.py: the index *)
(* ------------------------------------------------------------------ *)

(** The indices API of the client, as far as [recreate_index] and [ingest]
    use it: an index has its mappings and its documents; deleting an index
    that is not there and creating one that is there both raise. *)
Module Es.

Record Index : Type := mkIndex {
  mappings : list (string * string);
  documents : list Ingest.Doc
}.

(** The indices of the cluster, by name. *)
Definition State : Type := list (string * Index).

(** [es.indices.exists(index=name)] *)
Definition exists_ (name : string) (st : State) : bool :=
  match assoc name st with Some _ => true | None => false end.

Fixpoint remove (name : string) (st : State) : State :=
  match st with
  | [] => []
  | (n, ix) :: st' => if String.eqb n name then remove name st' else (n, ix) :: remove name st'
  end.

(** [es.indices.delete(index=name)] *)
Definition delete (name : string) (st : State) : Exc State :=
  if exists_ name st then ret (remove name st)
  else raise (StoreError "index_not_found_exception").

(** [es.indices.create(index=name, mappings=m)] *)
Definition create (name : string) (m : list (string * string)) (st : State) : Exc State :=
  if exists_ name st then raise (StoreError "resource_already_exists_exception")
  else ret (st ++ [(name, mkIndex m [])]).

(** [es.index(index=name, document=doc)]: the document goes last in the
    index; [ingest] calls it on an index that is there (here a missing
    index raises, as on a cluster that creates no index by itself). *)
Fixpoint index (name : string) (doc : Ingest.Doc) (st : State) : Exc State :=
  match st with
  | [] => raise (StoreError "index_not_found_exception")
  | (n, ix) :: st' =>
      if String.eqb n name then ret ((n, mkIndex (mappings ix) (documents ix ++ [doc])) :: st')
      else st'' <- index name doc st' ;; ret ((n, ix) :: st'')
  end.

End Es.

Module IngestIndex.

(** [INDEX_NAME] of es_client.py and [INDEX_MAPPINGS] of ingest_data.py, each
    field with its ["type"]. *)
Definition INDEX_NAME : string := "linkedin_profiles".

Definition INDEX_MAPPINGS : list (string * string) :=
  [ ("full_name", "text");
    ("job_title", "text");
    ("industry", "text");
    ("summary", "text");
    ("location_country", "text");
    ("education", "keyword");
    ("experience", "keyword");
    ("skills", "keyword");
    ("job_summary", "text") ].

Definition recreate_index (st : Es.State) : Exc Es.State :=
  st <- (if Es.exists_ INDEX_NAME st then Es.delete INDEX_NAME st else ret st) ;;
  Es.create INDEX_NAME INDEX_MAPPINGS st.

(** The loop of [ingest] with its calls of [es.index]: an exception of a
    row, from the cleaners or from the store, is reported and the loop goes
    on. *)
Fixpoint index_rows_into (cleaners : list (string * cleaner)) (df : list Ingest.Row)
         (st : Es.State) : Es.State :=
  match df with
  | [] => st
  | row :: df' =>
      match (doc <- Ingest.row_doc cleaners row ;; Es.index INDEX_NAME doc st) with
      | inr st' => index_rows_into cleaners df' st'
      | inl _ => index_rows_into cleaners df' st
      end
  end.

(** [ingest], from the frame and the cluster to the cluster it leaves. *)
Definition ingest_into (literal_eval : string -> Exc pyobj) (df : list Ingest.Row)
           (st : Es.State) : Exc Es.State :=
  st <- recreate_index st ;;
  let df := Ingest.drop_duplicates Ingest.columns df in
  cleaners <- Ingest.cleaners_for literal_eval Ingest.columns ;;
  ret (index_rows_into cleaners df st).

End IngestIndex.

(* ------------------------------------------------------------------ *)
(** ** export_text.py *)
(* ------------------------------------------------------------------ *)

Module ExportText.


(** ["=" * 50 + "\n"] *)
Definition NL : string := String Re.LF EmptyString.

Fixpoint repeat_char (c : ascii) (n : nat) : string :=
  match n with O => EmptyString | S n' => String c (repeat_char c n') end.

Definition separator : string := (repeat_char "=" 50 ++ NL)%string.

(** What is written for one cleaned cell: the cell and the separator, each
    on a line. *)
Definition entry (cleaned : string) : string := ((cleaned ++ NL) ++ separator)%string.




Section Files.

Variable literal_eval : string -> Exc pyobj.



End Files.

End ExportText.

(* ------------------------------------------------------------------ *)
(** ** main.py *)
(* ------------------------------------------------------------------ *)

Module Main.

(** [{"total": total, "results": results}] *)
Record Reply : Type := mkReply {
  reply_total : Z;
  reply_results : list Search.Result
}.

Section Endpoints.

Variable es_search : Search.Body -> Exc Search.Response.

Definition reply (r : Exc (list Search.Result * Z)) : Exc Reply :=
  p <- r ;; ret (mkReply (snd p) (fst p)).

(** [GET /search/]; [size] has the default [Query(10)]. *)
Definition search (columns : list string) (q : string) (size : option Z) : Search.Call Reply :=
  let size := Search.arg 10%Z size in
  let (calls, r) := Search.search_columns es_search columns q (Some size) in
  (calls, reply r).

(** [POST /search/advanced]; [size] has the default [10]. *)
Definition search_advanced (payload : list (string * string)) (size : option Z)
  : Search.Call Reply :=
  let size := Search.arg 10%Z size in
  let (calls, r) := Search.advanced_search es_search payload (Some size) in
  (calls, reply r).

End Endpoints.

End Main.

(* ------------------------------------------------------------------ *)
(** ** The experience and skills rules, item by item *)
(* ------------------------------------------------------------------ *)

Module ExperienceSpec.

(** The stripped [name] under the mapping [key] of an element, the empty
    string when there is none. *)
Definition sub_name (key : string) (fields : list (pyobj * pyobj)) : string :=
  match lookup_str key fields with
  | Some (PDict sub) =>
      match lookup_str "name" sub with
      | Some (PStr name) => Str.strip name
      | _ => ""
      end
  | _ => ""
  end.

(** What one element contributes. *)
Definition entry (item : pyobj) : option string :=
  match item with
  | PDict fields =>
      let company := sub_name "company" fields in
      let title := sub_name "title" fields in
      if Str.truthy company && Str.truthy title then Some (company ++ " : " ++ title)%string
      else if Str.truthy company then Some company
      else if Str.truthy title then Some title
      else None
  | _ => None
  end.

Fixpoint entries (items : list pyobj) : list string :=
  match items with
  | [] => []
  | item :: items' =>
      match entry item with
      | Some e => e :: entries items'
      | None => entries items'
      end
  end.

End ExperienceSpec.

Module SkillsSpec.

(** What one element contributes: a string that is not empty after
    stripping and is not a phone number. *)
Definition kept (item : pyobj) : option string :=
  match item with
  | PStr s =>
      if Str.truthy (Str.strip s) && negb (fullmatch re_phone (Str.strip s))
      then Some (Str.strip s) else None
  | _ => None
  end.

Fixpoint survivors (items : list pyobj) : list string :=
  match items with
  | [] => []
  | item :: items' =>
      match kept item with
      | Some s => s :: survivors items'
      | None => survivors items'
      end
  end.

End SkillsSpec.

(** The lists that [clean_experience] and [clean_skills] join, empty when
    they return before their loop. *)
Definition experience_extracted (literal_eval : string -> Exc pyobj) (text : string)
  : list string :=
  match parsed_list literal_eval text with
  | None => []
  | Some data =>
      match experience_results data with
      | inr results => results
      | inl _ => []
      end
  end.

Definition skills_extracted (literal_eval : string -> Exc pyobj) (text : string)
  : list string :=
  match parsed_list literal_eval text with
  | None => []
  | Some data =>
      match skills_list data with
      | inr skills => skills
      | inl _ => []
      end
  end.

(** A character [clean_industry] can return. *)
Definition industry_output_char (c : ascii) : bool :=
  Char.letter c || Ascii.eqb c " " || Ascii.eqb c "," || Ascii.eqb c "&" || Ascii.eqb c "-".

(** A regular expression that matches nothing. *)
Fixpoint dead (r : regex) : bool :=
  match r with
  | Void => true
  | Eps => false
  | Cls _ => false
  | Seq a b => dead a || dead b
  | Alt a b => dead a && dead b
  | Star _ => false
  end.

(** The clause of a column for a query, the same in both functions. *)
Definition clause_for (col q : string) : Search.Clause :=
  if mem col Search.TEXT_COLUMNS then Search.Match col q else Search.Term col q.

(** The keys of a dict, in their first-insertion order. *)
Fixpoint first_occurrences (l : list string) : list string :=
  match l with
  | [] => []
  | x :: l' => x :: filter (fun y => negb (String.eqb y x)) (first_occurrences l')
  end.

(* ------------------------------------------------------------------ *)
(** ** The cleaners on the cells of the specification *)
(* ------------------------------------------------------------------ *)

Module TextExamples.

Example full_name_path : clean_full_name "C:\Users\a.csv" = "".
Proof. reflexivity. Qed.

Example full_name_digits : clean_full_name "Jane   Doe123" = "Jane Doe".
Proof. reflexivity. Qed.

Example full_name_file : clean_full_name "report.XLSX" = "".
Proof. reflexivity. Qed.

Example industry_ok : clean_industry "Tech, Media & Co" = "Tech, Media & Co".
Proof. reflexivity. Qed.

Example industry_digit : clean_industry "3 Tech" = "".
Proof. reflexivity. Qed.

Example summary_plus : clean_summary "10001+" = "".
Proof. reflexivity. Qed.

Example summary_ok : clean_summary "Loves tech" = "Loves tech".
Proof. reflexivity. Qed.

Example location_range : clean_location_country "55,000-70,000" = "".
Proof. reflexivity. Qed.

Example location_single : clean_location_country "U" = "".
Proof. reflexivity. Qed.

Example location_ok : clean_location_country "Germany" = "Germany".
Proof. reflexivity. Qed.

Example job_summary_date : clean_job_summary "2020-05" = "".
Proof. reflexivity. Qed.

Example job_summary_ok : clean_job_summary " I work on the CREW " = "I work on the CREW".
Proof. reflexivity. Qed.

End TextExamples.

Module ListExamples.

Definition education := clean_education Literal.eval.
Definition experience := clean_experience Literal.eval.
Definition skills := clean_skills Literal.eval.

Example education_two :
  education "[{'school': {'name': 'MIT'}}, {'school': {'name': 'Cairo Univ'}}]"
  = inr "MIT | Cairo Univ".
Proof. reflexivity. Qed.

Example education_malformed : education "[{'school': {'name': 'MIT'}" = inr "".
Proof. reflexivity. Qed.

Example education_shapes :
  education "[1, 'x', {'school': 'MIT'}, {'school': {'name': None}}, {'school': {'name': ' Yale '}}]"
  = inr "Yale".
Proof. reflexivity. Qed.

Example experience_title_only : experience "[{'title': {'name': 'CEO'}}]" = inr "CEO".
Proof. reflexivity. Qed.

Example experience_both :
  experience "[{'company': {'name': 'Acme'}, 'title': {'name': 'CEO'}}, {'company': {'name': 'Initech'}}]"
  = inr "Acme : CEO | Initech".
Proof. reflexivity. Qed.

Example skills_phone : skills "['Python', '+14155550100', '']" = inr "Python".
Proof. reflexivity. Qed.

Example skills_mixed : skills "[' SQL ', 7, None, 'Go', ]" = inr "SQL | Go".
Proof. reflexivity. Qed.

Example dispatch_unknown :
  normalize Literal.eval "age" "42" = inl (ValueError "No cleaner found for column 'age'").
Proof. reflexivity. Qed.

End ListExamples.

(* ------------------------------------------------------------------ *)
(** ** Facts about the string primitives *)
(* ------------------------------------------------------------------ *)

Module StrFacts.

Import Str.
Local Open Scope string_scope.

(** Settles a fact about one character by running through the 256 of them. *)
Ltac by_char c :=
  destruct c as [[] [] [] [] [] [] [] []]; vm_compute; try reflexivity; try discriminate; auto.

Lemma space_blank : forall c, Ascii.eqb c " " = true -> Char.space c = true.
Proof. intros c H. apply Ascii.eqb_eq in H. subst c. reflexivity. Qed.

Lemma nonspace_not_blank : forall c, Char.space c = false -> Ascii.eqb c " " = false.
Proof.
  intros c H. destruct (Ascii.eqb c " ") eqn:E; [|reflexivity].
  apply space_blank in E. congruence.
Qed.

Lemma letter_not_space : forall c, Char.letter c = true -> Char.space c = false.
Proof. intros c. by_char c. Qed.

Lemma all_chars_impl (p q : ascii -> bool) :
  (forall c, p c = true -> q c = true) ->
  forall s, all_chars p s = true -> all_chars q s = true.
Proof.
  intros Hpq s. induction s as [|c s IH]; simpl; [reflexivity|].
  intros H. apply andb_true_iff in H. destruct H as [Hc Hs].
  rewrite (Hpq _ Hc). simpl. auto.
Qed.

Lemma all_chars_app (p : ascii -> bool) : forall s t,
  all_chars p (s ++ t) = all_chars p s && all_chars p t.
Proof.
  induction s as [|c s IH]; intros t; simpl; [reflexivity|].
  rewrite IH. apply andb_assoc.
Qed.

Lemma all_chars_lstrip (p : ascii -> bool) : forall s,
  all_chars p s = true -> all_chars p (lstrip s) = true.
Proof.
  induction s as [|c s IH]; simpl; [reflexivity|].
  intros H. destruct (Char.space c).
  - apply IH. apply andb_true_iff in H. tauto.
  - exact H.
Qed.

Lemma all_chars_rstrip (p : ascii -> bool) : forall s,
  all_chars p s = true -> all_chars p (rstrip s) = true.
Proof.
  induction s as [|c s IH]; simpl; [reflexivity|].
  intros H. apply andb_true_iff in H. destruct H as [Hc Hs].
  specialize (IH Hs). destruct (rstrip s) as [|c' r].
  - destruct (Char.space c); simpl; [reflexivity|]. rewrite Hc. reflexivity.
  - change (all_chars p (String c (String c' r)))
      with (p c && all_chars p (String c' r)).
    rewrite Hc. exact IH.
Qed.

Lemma all_chars_strip (p : ascii -> bool) : forall s,
  all_chars p s = true -> all_chars p (strip s) = true.
Proof. intros s H. apply all_chars_rstrip, all_chars_lstrip, H. Qed.

(** [rstrip] leaves the first character alone when it is not a space. *)
Lemma rstrip_head : forall c s, Char.space c = false ->
  exists r, rstrip (String c s) = String c r.
Proof.
  intros c s Hc. simpl. destruct (rstrip s) as [|c' r].
  - rewrite Hc. eexists; reflexivity.
  - eexists; reflexivity.
Qed.

Lemma lstrip_head : forall s, head_space (lstrip s) = false.
Proof.
  induction s as [|c s IH]; simpl; [reflexivity|].
  destruct (Char.space c) eqn:E; [exact IH|]. simpl. exact E.
Qed.

Lemma lstrip_fixed : forall s, head_space s = false -> lstrip s = s.
Proof.
  intros [|c s]; simpl; [reflexivity|]. intros H. rewrite H. reflexivity.
Qed.

Lemma rstrip_idem : forall s, rstrip (rstrip s) = rstrip s.
Proof.
  induction s as [|c s IH]; simpl; [reflexivity|].
  destruct (rstrip s) as [|c' r] eqn:E.
  - destruct (Char.space c) eqn:Ec; simpl; [reflexivity|]. rewrite Ec. reflexivity.
  - change (rstrip (String c (String c' r)))
      with (match rstrip (String c' r) with
            | EmptyString => if Char.space c then EmptyString else String c EmptyString
            | String a b => String c (String a b)
            end).
    rewrite IH. reflexivity.
Qed.

Lemma head_space_rstrip : forall s, head_space s = false -> head_space (rstrip s) = false.
Proof.
  intros [|c s]; [reflexivity|]. cbn [head_space]. intros H.
  destruct (rstrip_head c s H) as [r Hr]. rewrite Hr. exact H.
Qed.

Lemma head_space_strip : forall s, head_space (strip s) = false.
Proof. intros s. apply head_space_rstrip, lstrip_head. Qed.

(** [strip] changes nothing the second time. *)
Lemma strip_idem : forall s, strip (strip s) = strip s.
Proof.
  intros s. unfold strip at 1.
  rewrite (lstrip_fixed _ (head_space_strip s)).
  unfold strip. apply rstrip_idem.
Qed.

Lemma length_lstrip : forall s, String.length (lstrip s) <= String.length s.
Proof.
  induction s as [|c s IH]; simpl; [lia|]. destruct (Char.space c); simpl; lia.
Qed.

Lemma length_rstrip : forall s, String.length (rstrip s) <= String.length s.
Proof.
  induction s as [|c s IH]; simpl; [lia|].
  destruct (rstrip s); [destruct (Char.space c)|]; simpl in *; lia.
Qed.

(** A non-empty string that [strip] leaves alone starts with a character
    that is not a space. *)
Lemma stripped_head : forall s, strip s = s -> truthy s = true ->
  exists c s', s = String c s' /\ Char.space c = false.
Proof.
  intros [|c s'] Hs Ht; [discriminate|].
  exists c, s'. split; [reflexivity|].
  destruct (Char.space c) eqn:E; [|reflexivity].
  exfalso. unfold strip in Hs. simpl in Hs. rewrite E in Hs.
  pose proof (length_rstrip (lstrip s')) as H1.
  pose proof (length_lstrip s') as H2.
  rewrite Hs in H1. simpl in H1. lia.
Qed.

Lemma rstrip_app_blank : forall s, rstrip (s ++ " ") = rstrip s.
Proof.
  induction s as [|c s IH]; [reflexivity|].
  change (String c s ++ " ") with (String c (s ++ " ")).
  simpl. rewrite IH. reflexivity.
Qed.

Lemma strip_app_blank : forall s, strip s = s -> truthy s = true -> strip (s ++ " ") = s.
Proof.
  intros s Hs Ht. destruct (stripped_head s Hs Ht) as (c & s' & -> & Hc).
  unfold strip in *. simpl in *. rewrite Hc in *.
  change (String c (s' ++ " ")) with (String c s' ++ " ").
  rewrite rstrip_app_blank. exact Hs.
Qed.

Lemma strip_blank_cons : forall s, strip (String " " s) = strip s.
Proof. reflexivity. Qed.

End StrFacts.

(* ------------------------------------------------------------------ *)
(** ** Facts about the regular-expression calls *)
(* ------------------------------------------------------------------ *)

Module ReFacts.

Import Str StrFacts.
Local Open Scope string_scope.

Lemma match_Void : forall s, match_ Void s = false.
Proof. induction s as [|c s IH]; simpl; auto. Qed.

Lemma match_Eps : forall s, match_ Eps s = true.
Proof. intros [|c s]; reflexivity. Qed.

(** Searching for one character of a class finds it when one is there. *)
Lemma search_Cls (p : ascii -> bool) : forall s,
  search (Cls p) s = negb (all_chars (fun c => negb (p c)) s).
Proof.
  induction s as [|c s IH]; [reflexivity|].
  cbn [search match_ nullable deriv all_chars orb].
  rewrite IH. destruct (p c); simpl.
  - rewrite match_Eps. reflexivity.
  - rewrite match_Void. reflexivity.
Qed.

Lemma search_Cls_none (p : ascii -> bool) : forall s,
  search (Cls p) s = false <-> all_chars (fun c => negb (p c)) s = true.
Proof.
  intros s. rewrite search_Cls. destruct (all_chars _ s); simpl; intuition congruence.
Qed.

Lemma head_sub_plus : forall s, head_space (sub_plus Char.space " " s) = head_space s.
Proof.
  induction s as [|c s IH]; [reflexivity|].
  cbn [sub_plus head_space]. destruct (Char.space c) eqn:Ec.
  - destruct s as [|c' s']; [reflexivity|].
    destruct (Char.space c') eqn:Ec'.
    + rewrite IH. simpl. exact Ec'.
    + reflexivity.
  - simpl. exact Ec.
Qed.

Lemma sub_plus_collapsed : forall s, collapsed (sub_plus Char.space " " s) = true.
Proof.
  induction s as [|c s IH]; [reflexivity|].
  cbn [sub_plus]. destruct (Char.space c) eqn:Ec.
  - destruct s as [|c' s']; [reflexivity|].
    destruct (Char.space c') eqn:Ec'; [exact IH|].
    change (" " ++ sub_plus Char.space " " (String c' s'))
      with (String " " (sub_plus Char.space " " (String c' s'))).
    cbn [collapsed]. rewrite IH, head_sub_plus. simpl. rewrite Ec'. reflexivity.
  - cbn [collapsed]. rewrite Ec, IH. reflexivity.
Qed.

Lemma collapsed_fixed : forall s, collapsed s = true -> sub_plus Char.space " " s = s.
Proof.
  induction s as [|c s IH]; [reflexivity|].
  cbn [collapsed sub_plus]. intros H. apply andb_true_iff in H. destruct H as [Hc Hs].
  destruct (Char.space c) eqn:Ec.
  - apply andb_true_iff in Hc. destruct Hc as [Hb Hh].
    apply Ascii.eqb_eq in Hb. subst c.
    destruct s as [|c' s']; [reflexivity|].
    simpl in Hh. apply negb_true_iff in Hh. rewrite Hh.
    rewrite (IH Hs). reflexivity.
  - rewrite (IH Hs). reflexivity.
Qed.

Lemma collapsed_lstrip : forall s, collapsed s = true -> collapsed (lstrip s) = true.
Proof.
  induction s as [|c s IH]; [reflexivity|].
  intros H. cbn [lstrip]. destruct (Char.space c); [|exact H].
  apply IH. cbn [collapsed] in H. apply andb_true_iff in H. tauto.
Qed.

Lemma rstrip_cons_inv : forall s c r, rstrip s = String c r -> exists t, s = String c t.
Proof.
  intros [|a t] c r; simpl; [discriminate|].
  destruct (rstrip t); [destruct (Char.space a)|]; intros H; inversion H; subst; eauto.
Qed.

Lemma collapsed_rstrip : forall s, collapsed s = true -> collapsed (rstrip s) = true.
Proof.
  induction s as [|c s IH]; [reflexivity|].
  intros H. cbn [collapsed] in H. apply andb_true_iff in H. destruct H as [Hc Hs].
  specialize (IH Hs). cbn [rstrip].
  destruct (rstrip s) as [|c' r] eqn:E.
  - destruct (Char.space c) eqn:Ec; [reflexivity|]. simpl. rewrite Ec. reflexivity.
  - destruct (rstrip_cons_inv s c' r E) as [t Ht]. subst s.
    change (collapsed (String c (String c' r)))
      with ((if Char.space c then Ascii.eqb c " " && negb (head_space (String c' r)) else true)
            && collapsed (String c' r)).
    rewrite IH, andb_true_r. exact Hc.
Qed.

Lemma collapsed_strip : forall s, collapsed s = true -> collapsed (strip s) = true.
Proof. intros s H. apply collapsed_rstrip, collapsed_lstrip, H. Qed.

(** A collapsed string has no two blanks in a row. *)
Lemma collapsed_no_double : forall s, collapsed s = true -> contains "  " s = false.
Proof.
  induction s as [|c s IH]; [reflexivity|].
  intros H. cbn [collapsed] in H. apply andb_true_iff in H. destruct H as [Hc Hs].
  cbn [contains]. rewrite (IH Hs), orb_false_r.
  cbn [String.prefix]. destruct (ascii_dec " " c) as [<-|]; [|reflexivity].
  simpl in Hc. destruct s as [|c' s']; [reflexivity|].
  cbn [String.prefix]. destruct (ascii_dec " " c') as [<-|]; [|reflexivity].
  simpl in Hc. discriminate.
Qed.

(** What [re.sub] with an empty replacement leaves. *)
Lemma sub_cls_keeps (p : ascii -> bool) : forall s,
  all_chars (fun c => negb (p c)) (sub_cls p "" s) = true.
Proof.
  induction s as [|c s IH]; [reflexivity|].
  cbn [sub_cls]. destruct (p c) eqn:E; [exact IH|].
  cbn [all_chars]. rewrite E, IH. reflexivity.
Qed.

(** The characters after collapsing: the ones that were not whitespace, and
    the blank. *)
Lemma sub_plus_chars (P Q : ascii -> bool) :
  (forall c, P c = true -> Char.space c = false -> Q c = true) ->
  Q " "%char = true ->
  forall s, all_chars P s = true -> all_chars Q (sub_plus Char.space " " s) = true.
Proof.
  intros HPQ Hblank. induction s as [|c s IH]; [reflexivity|].
  intros H. cbn [all_chars] in H. apply andb_true_iff in H. destruct H as [Hc Hs].
  specialize (IH Hs). cbn [sub_plus]. destruct (Char.space c) eqn:Ec.
  - destruct s as [|c' s']; [simpl; rewrite Hblank; reflexivity|].
    destruct (Char.space c'); [exact IH|].
    change (" " ++ sub_plus Char.space " " (String c' s'))
      with (String " " (sub_plus Char.space " " (String c' s'))).
    cbn [all_chars]. rewrite Hblank, IH. reflexivity.
  - cbn [all_chars]. rewrite (HPQ c Hc Ec), IH. reflexivity.
Qed.

End ReFacts.

(* ------------------------------------------------------------------ *)
(** ** The output of [clean_full_name] *)
(* ------------------------------------------------------------------ *)

(** C10.  Whatever the input, the output of [clean_full_name] consists of
    ASCII letters and space characters only, and the two-space string does
    not occur in it. *)
Theorem clean_full_name_letters_single_spaces : forall text : string,
  Str.all_chars letter_or_blank (clean_full_name text) = true
  /\ Str.contains "  " (clean_full_name text) = false.
Proof.
  intros text. unfold clean_full_name.
  destruct (negb (Str.truthy text)); [split; reflexivity|].
  destruct (_ || _ || _ || _); [split; reflexivity|].
  set (kept := sub_cls not_letter_space "" (Str.strip text)).
  set (out := sub_plus Char.space " " kept).
  assert (Hchars : Str.all_chars letter_or_blank out = true).
  { apply ReFacts.sub_plus_chars with (P := fun c => negb (not_letter_space c)).
    - intros c Hc Hs. unfold not_letter_space in Hc. rewrite negb_involutive in Hc.
      unfold letter_or_blank. rewrite Hs, orb_false_r in Hc. rewrite Hc. reflexivity.
    - reflexivity.
    - apply ReFacts.sub_cls_keeps. }
  assert (Hdouble : Str.contains "  " out = false).
  { apply ReFacts.collapsed_no_double, ReFacts.sub_plus_collapsed. }
  destruct (Str.truthy out); split; auto.
Qed.

(* ------------------------------------------------------------------ *)
(** ** Cleaning a cleaned value again *)
(* ------------------------------------------------------------------ *)

Module Idempotence.

Import Str StrFacts ReFacts.
Local Open Scope string_scope.

Lemma keep_unless_idem (reject : string -> bool) : forall x,
  keep_unless reject (keep_unless reject x) = keep_unless reject x.
Proof.
  intros x.
  assert (E : keep_unless reject x = ""
              \/ (keep_unless reject x = strip x /\ reject (strip x) = false)).
  { unfold keep_unless. destruct (negb (truthy x)); [left; reflexivity|]. cbv zeta.
    destruct (reject (strip x)); [left|right]; auto. }
  destruct E as [E|[E Hr]]; rewrite E; [reflexivity|].
  unfold keep_unless. destruct (truthy (strip x)) eqn:Ht.
  - simpl. rewrite StrFacts.strip_idem, Hr. reflexivity.
  - destruct (strip x); [reflexivity|discriminate].
Qed.

Lemma job_title_shape : forall x, clean_job_title x = keep_unless looks_serialized x.
Proof. reflexivity. Qed.

Lemma summary_shape : forall x,
  clean_summary x =
  keep_unless (fun t => looks_serialized t
                        || (fullmatch re_int_range t || fullmatch re_int_plus t
                            || fullmatch re_decimal t)) x.
Proof.
  intros x. unfold clean_summary, keep_unless.
  destruct (negb (truthy x)); [reflexivity|]. cbv zeta.
  destruct (looks_serialized (strip x)); reflexivity.
Qed.

Lemma location_country_shape : forall x,
  clean_location_country x =
  keep_unless (fun t => looks_serialized t
                        || fullmatch re_iso_date t
                        || fullmatch re_comma_range t
                        || (fullmatch re_less t || fullmatch re_greater t)
                        || fullmatch re_decimal t
                        || Nat.eqb (String.length t) 1) x.
Proof.
  intros x. unfold clean_location_country, keep_unless.
  destruct (negb (truthy x)); [reflexivity|]. cbv zeta.
  destruct (looks_serialized (strip x)); [reflexivity|].
  destruct (fullmatch re_iso_date (strip x)); [reflexivity|].
  destruct (fullmatch re_comma_range (strip x)); [reflexivity|].
  destruct (fullmatch re_less (strip x) || fullmatch re_greater (strip x)); [reflexivity|].
  destruct (fullmatch re_decimal (strip x)); reflexivity.
Qed.

Lemma job_summary_shape : forall x,
  clean_job_summary x =
  keep_unless (fun t => Nat.eqb (String.length t) 1 || isdigit t
                        || fullmatch re_year_month t) x.
Proof. reflexivity. Qed.

Lemma industry_char_plain : forall c, industry_char c = true ->
  Char.digit c = false /\ c <> "["%char /\ c <> "{"%char.
Proof. intros c. by_char c; repeat split; discriminate. Qed.

Lemma industry_not_serialized : forall y,
  all_chars industry_char y = true -> looks_serialized y = false.
Proof.
  intros [|c y] H; [reflexivity|].
  cbn [all_chars] in H. apply andb_true_iff in H. destruct H as [Hc _].
  destruct (industry_char_plain c Hc) as (_ & H1 & H2).
  unfold looks_serialized, startswith. cbn [String.prefix String.eqb].
  destruct (ascii_dec "[" c) as [E|_]; [congruence|].
  destruct (ascii_dec "{" c) as [E|_]; [congruence|].
  destruct (Ascii.eqb c "[") eqn:E; [apply Ascii.eqb_eq in E; congruence|reflexivity].
Qed.

(** A value that is stripped, collapsed and made of industry characters is
    what [clean_industry] returns for it. *)
Lemma clean_industry_fixed : forall y,
  strip y = y -> all_chars industry_char y = true -> collapsed y = true ->
  clean_industry y = y.
Proof.
  intros y Hs Hc Hn. destruct y as [|c y']; [reflexivity|].
  unfold clean_industry. cbn [truthy negb]. cbv zeta. rewrite Hs.
  rewrite (industry_not_serialized _ Hc).
  assert (Hd : search dig (String c y') = false).
  { apply ReFacts.search_Cls_none. revert Hc. apply StrFacts.all_chars_impl.
    intros a Ha. destruct (industry_char_plain a Ha) as (-> & _). reflexivity. }
  rewrite Hd.
  assert (Hi : search (Cls not_industry_char) (String c y') = false).
  { apply ReFacts.search_Cls_none. exact Hc. }
  rewrite Hi. cbn [orb]. rewrite (ReFacts.collapsed_fixed _ Hn). exact Hs.
Qed.

(** What [clean_industry] returns is such a value. *)
Lemma clean_industry_normal : forall x,
  strip (clean_industry x) = clean_industry x
  /\ all_chars industry_char (clean_industry x) = true
  /\ collapsed (clean_industry x) = true.
Proof.
  intros x. unfold clean_industry.
  destruct (negb (truthy x)); [repeat split|]. cbv zeta.
  destruct (looks_serialized (strip x) || search dig (strip x)); [repeat split|].
  destruct (search (Cls not_industry_char) (strip x)) eqn:Hi; [repeat split|].
  apply ReFacts.search_Cls_none in Hi. split; [|split].
  - apply StrFacts.strip_idem.
  - apply StrFacts.all_chars_strip.
    apply ReFacts.sub_plus_chars with (P := industry_char); auto.
  - apply ReFacts.collapsed_strip, ReFacts.sub_plus_collapsed.
Qed.

Lemma clean_industry_idem : forall x, clean_industry (clean_industry x) = clean_industry x.
Proof.
  intros x. destruct (clean_industry_normal x) as (H1 & H2 & H3).
  apply clean_industry_fixed; assumption.
Qed.

Section Dispatch.

Variable literal_eval : string -> Exc pyobj.

Lemma normalize_job_title : forall x,
  normalize literal_eval "job_title" x = inr (clean_job_title x).
Proof. reflexivity. Qed.

Lemma normalize_industry : forall x,
  normalize literal_eval "industry" x = inr (clean_industry x).
Proof. reflexivity. Qed.

Lemma normalize_summary : forall x,
  normalize literal_eval "summary" x = inr (clean_summary x).
Proof. reflexivity. Qed.

Lemma normalize_location_country : forall x,
  normalize literal_eval "location_country" x = inr (clean_location_country x).
Proof. reflexivity. Qed.

Lemma normalize_job_summary : forall x,
  normalize literal_eval "job_summary" x = inr (clean_job_summary x).
Proof. reflexivity. Qed.

Lemma normalize_full_name : forall x,
  normalize literal_eval "full_name" x = inr (clean_full_name x).
Proof. reflexivity. Qed.

Lemma normalize_education : forall x,
  normalize literal_eval "education" x = clean_education literal_eval x.
Proof. reflexivity. Qed.

Lemma normalize_experience : forall x,
  normalize literal_eval "experience" x = clean_experience literal_eval x.
Proof. reflexivity. Qed.

Lemma normalize_skills : forall x,
  normalize literal_eval "skills" x = clean_skills literal_eval x.
Proof. reflexivity. Qed.

(** A text that is not written between brackets never reaches the loop. *)
Lemma parsed_list_unbracketed : forall y,
  startswith "[" (strip y) && endswith "]" (strip y) = false ->
  parsed_list literal_eval y = None.
Proof.
  intros y H. unfold parsed_list.
  destruct (negb (truthy y)); [reflexivity|]. cbv zeta. rewrite H. reflexivity.
Qed.

End Dispatch.

End Idempotence.

(** C1, as the code has it.  For job_title, industry, summary,
    location_country and job_summary, cleaning a cleaned value returns it
    unchanged.  For education, experience and skills the cleaner expects a
    list literal: applied to a text that is not written between [[] and
    []], such as the joined items it returns, it gives the empty string. *)
Theorem normalize_again :
  forall literal_eval : string -> Exc pyobj,
    (forall col x v,
        In col stable_columns ->
        normalize literal_eval col x = inr v ->
        normalize literal_eval col v = inr v)
    /\ (forall col y,
        In col list_columns ->
        Str.startswith "[" (Str.strip y) && Str.endswith "]" (Str.strip y) = false ->
        normalize literal_eval col y = inr "").
Proof.
  intros le. split.
  - intros col x v Hcol Hx. unfold stable_columns in Hcol. simpl in Hcol.
    destruct Hcol as [<-|[<-|[<-|[<-|[<-|[]]]]]].
    + rewrite Idempotence.normalize_job_title in *. inversion Hx; subst.
      rewrite !Idempotence.job_title_shape, Idempotence.keep_unless_idem. reflexivity.
    + rewrite Idempotence.normalize_industry in *. inversion Hx; subst.
      rewrite Idempotence.clean_industry_idem. reflexivity.
    + rewrite Idempotence.normalize_summary in *. inversion Hx; subst.
      rewrite !Idempotence.summary_shape, Idempotence.keep_unless_idem. reflexivity.
    + rewrite Idempotence.normalize_location_country in *. inversion Hx; subst.
      rewrite !Idempotence.location_country_shape, Idempotence.keep_unless_idem. reflexivity.
    + rewrite Idempotence.normalize_job_summary in *. inversion Hx; subst.
      rewrite !Idempotence.job_summary_shape, Idempotence.keep_unless_idem. reflexivity.
  - intros col y Hcol Hy. unfold list_columns in Hcol. simpl in Hcol.
    destruct Hcol as [<-|[<-|[<-|[]]]].
    + rewrite Idempotence.normalize_education. unfold clean_education.
      rewrite (Idempotence.parsed_list_unbracketed le y Hy). reflexivity.
    + rewrite Idempotence.normalize_experience. unfold clean_experience.
      rewrite (Idempotence.parsed_list_unbracketed le y Hy). reflexivity.
    + rewrite Idempotence.normalize_skills. unfold clean_skills.
      rewrite (Idempotence.parsed_list_unbracketed le y Hy). reflexivity.
Qed.

Lemma normalize_again_witness :
  normalize Literal.eval "industry" "Tech,   Media & Co" = inr "Tech, Media & Co"
  /\ normalize Literal.eval "industry" "Tech, Media & Co" = inr "Tech, Media & Co"
  /\ normalize Literal.eval "skills" "Python | Go" = inr "".
Proof.
  destruct (normalize_again Literal.eval) as [Htext Hlist].
  split; [reflexivity|]. split.
  - apply (Htext "industry" "Tech,   Media & Co" "Tech, Media & Co").
    + simpl. auto.
    + reflexivity.
  - apply (Hlist "skills" "Python | Go").
    + simpl. auto.
    + reflexivity.
Defined.

(** C1 as stated fails on the education column: the cleaned value of a
    cell is the school name, and cleaning that name gives the empty
    string. *)
Lemma normalize_education_twice :
  normalize Literal.eval "education" "[{'school': {'name': 'MIT'}}]" = inr "MIT"
  /\ normalize Literal.eval "education" "MIT" = inr ""
  /\ "MIT" <> "".
Proof. repeat split; discriminate. Qed.

(** The full-name cleaner strips before it deletes characters, so a deleted
    suffix can leave a final blank that a second pass strips. *)
Example full_name_twice :
  clean_full_name "Jane Doe 123" = "Jane Doe "
  /\ clean_full_name "Jane Doe " = "Jane Doe".
Proof. split; reflexivity. Qed.

(* ------------------------------------------------------------------ *)
(** ** The loops of the list cleaners *)
(* ------------------------------------------------------------------ *)

Module Loops.

Import EducationSpec.

Lemma for_each_total {A S : Type} (body : S -> A -> Exc S) :
  (forall acc x, exists acc', body acc x = inr acc') ->
  forall l acc, exists r, for_each body l acc = inr r.
Proof.
  intros Hbody. induction l as [|x l IH]; intros acc; simpl.
  - eexists; reflexivity.
  - destruct (Hbody acc x) as [acc' E]. rewrite E. simpl. apply IH.
Qed.

Lemma education_item_appends : forall acc item,
  education_item acc item =
  inr (acc ++ match school_name item with
              | Some n => if Str.truthy n then [n] else []
              | None => []
              end).
Proof.
  intros acc item. unfold education_item, school_name.
  destruct item as [s|z|b| |items|fields|r]; simpl; rewrite ?app_nil_r; try reflexivity.
  destruct (lookup_str "school" fields) as [school|]; simpl; rewrite ?app_nil_r; try reflexivity.
  destruct school as [s|z|b| |items|sfields|r]; simpl; rewrite ?app_nil_r; try reflexivity.
  destruct (lookup_str "name" sfields) as [name|]; simpl; rewrite ?app_nil_r; try reflexivity.
  destruct name as [s|z|b| |items|nfields|r]; simpl; rewrite ?app_nil_r; try reflexivity.
  destruct (Str.truthy (Str.strip s)); simpl; rewrite ?app_nil_r; reflexivity.
Qed.

Lemma experience_item_total : forall acc item, exists acc', experience_item acc item = inr acc'.
Proof.
  intros acc item. unfold experience_item.
  destruct item as [s|z|b| |items|fields|r]; simpl; try (eexists; reflexivity).
  destruct (lookup_str "company" fields) as [[s|z|b| |items|cf|r]|],
           (lookup_str "title" fields) as [[s'|z'|b'| |items'|tf|r']|]; simpl;
    repeat match goal with
           | |- context [lookup_str ?k ?d] =>
               destruct (lookup_str k d) as [[?|?|?| |?|?|?]|]; simpl
           | |- context [Str.truthy ?x] => destruct (Str.truthy x); simpl
           end;
    eexists; reflexivity.
Qed.

Lemma skills_item_total : forall acc item, exists acc', skills_item acc item = inr acc'.
Proof.
  intros acc item. unfold skills_item.
  destruct item as [s|z|b| |items|fields|r]; simpl; try (eexists; reflexivity).
  destruct (Str.truthy (Str.strip s)); simpl; [|eexists; reflexivity].
  destruct (fullmatch re_phone (Str.strip s)); eexists; reflexivity.
Qed.

Section Total.

Variable literal_eval : string -> Exc pyobj.

(** What reaches a loop is a list. *)
Lemma parsed_list_is_list : forall text data,
  parsed_list literal_eval text = Some data -> exists items, data = PList items.
Proof.
  intros text data. unfold parsed_list.
  destruct (negb (Str.truthy text)); [discriminate|]. cbv zeta.
  destruct (negb _); [discriminate|].
  destruct (literal_eval (Str.strip text)) as [e|d]; [discriminate|].
  destruct d as [s|z|b| |items|fields|r]; simpl; try discriminate.
  intros H. inversion H. eauto.
Qed.

Lemma clean_education_total : forall text, exists v, clean_education literal_eval text = inr v.
Proof.
  intros text. unfold clean_education.
  destruct (parsed_list literal_eval text) as [data|] eqn:E; [|eexists; reflexivity].
  destruct (parsed_list_is_list _ _ E) as [items ->].
  unfold education_names. simpl.
  destruct (for_each_total education_item
              (fun acc x => ex_intro _ _ (education_item_appends acc x)) items [])
    as [r Hr].
  rewrite Hr. eexists; reflexivity.
Qed.

Lemma clean_experience_total : forall text, exists v, clean_experience literal_eval text = inr v.
Proof.
  intros text. unfold clean_experience.
  destruct (parsed_list literal_eval text) as [data|] eqn:E; [|eexists; reflexivity].
  destruct (parsed_list_is_list _ _ E) as [items ->].
  unfold experience_results. simpl.
  destruct (for_each_total experience_item experience_item_total items []) as [r Hr].
  rewrite Hr. eexists; reflexivity.
Qed.

Lemma clean_skills_total : forall text, exists v, clean_skills literal_eval text = inr v.
Proof.
  intros text. unfold clean_skills.
  destruct (parsed_list literal_eval text) as [data|] eqn:E; [|eexists; reflexivity].
  destruct (parsed_list_is_list _ _ E) as [items ->].
  unfold skills_list. simpl.
  destruct (for_each_total skills_item skills_item_total items []) as [r Hr].
  rewrite Hr. eexists; reflexivity.
Qed.

(** A literal that does not evaluate, or not to a list, never reaches a
    loop. *)
Lemma parsed_list_malformed : forall text,
  (exists e, literal_eval (Str.strip text) = inl e)
  \/ (exists d, literal_eval (Str.strip text) = inr d /\ isinstance_list d = false) ->
  parsed_list literal_eval text = None.
Proof.
  intros text H. unfold parsed_list.
  destruct (negb (Str.truthy text)); [reflexivity|]. cbv zeta.
  destruct (negb _); [reflexivity|].
  destruct H as [[e ->]|[d' [-> Hd]]]; [reflexivity|]. rewrite Hd. reflexivity.
Qed.

Lemma get_cleaner_unknown : forall col,
  ~ In col Ingest.columns ->
  get_cleaner literal_eval col
  = inl (ValueError ("No cleaner found for column '" ++ col ++ "'")%string).
Proof.
  intros col Hcol. unfold get_cleaner, cleaners_table. cbn [assoc].
  repeat match goal with
         | |- context [String.eqb ?k col] =>
             destruct (String.eqb_spec k col) as [E|_];
             [exfalso; apply Hcol; rewrite <- E; simpl; tauto|]
         end.
  reflexivity.
Qed.

End Total.

End Loops.

(* ------------------------------------------------------------------ *)
(** ** The names [clean_education] extracts *)
(* ------------------------------------------------------------------ *)

Lemma education_loop : forall items acc,
  for_each education_item items acc
  = inr (acc ++ filter Str.truthy (EducationSpec.projection items)).
Proof.
  induction items as [|item items IH]; intros acc; simpl.
  - rewrite app_nil_r. reflexivity.
  - rewrite Loops.education_item_appends. simpl. rewrite IH.
    destruct (EducationSpec.school_name item) as [n|]; simpl.
    + destruct (Str.truthy n); simpl; rewrite <- ?app_assoc, ?app_nil_r; reflexivity.
    + rewrite app_nil_r. reflexivity.
Qed.

(** C5, as the code has it.  For every parsed education list, the names
    extracted are the stripped names of the elements that are a mapping
    containing a [school] mapping with a string [name], in element order,
    those that are not empty after stripping; no other element
    contributes. *)
Theorem education_names_projection : forall items : list pyobj,
  education_names (PList items)
  = inr (filter Str.truthy (EducationSpec.projection items)).
Proof.
  intros items. unfold education_names. simpl. apply education_loop.
Qed.

(** C5 as stated fails on a name made of blanks: the projection holds its
    stripped form, the empty string, and the loop skips it. *)
Lemma education_blank_name_skipped :
  EducationSpec.projection [PDict [(PStr "school", PDict [(PStr "name", PStr "  ")])]] = [""]
  /\ education_names (PList [PDict [(PStr "school", PDict [(PStr "name", PStr "  ")])]])
     = inr [].
Proof. split; reflexivity. Qed.

(* ------------------------------------------------------------------ *)
(** ** The cleaners never raise *)
(* ------------------------------------------------------------------ *)

(** C6.  Whatever [ast.literal_eval] does: for each of the nine declared
    columns [get_cleaner] returns a cleaner, and that cleaner returns a
    value for every string; a list cleaner returns the empty string when
    the literal does not evaluate or evaluates to something that is not a
    list; for any other column name [get_cleaner] itself raises. *)
Theorem normalize_total :
  forall literal_eval : string -> Exc pyobj,
    (forall col text,
        In col Ingest.columns ->
        exists f, get_cleaner literal_eval col = inr f /\ exists v, f text = inr v)
    /\ (forall col text,
        In col list_columns ->
        (exists e, literal_eval (Str.strip text) = inl e)
        \/ (exists data, literal_eval (Str.strip text) = inr data
                         /\ isinstance_list data = false) ->
        normalize literal_eval col text = inr "")
    /\ (forall col,
        ~ In col Ingest.columns ->
        get_cleaner literal_eval col
        = inl (ValueError ("No cleaner found for column '" ++ col ++ "'")%string)).
Proof.
  intros le. split; [|split].
  - intros col text Hcol. unfold Ingest.columns in Hcol. simpl in Hcol.
    destruct Hcol as [<-|[<-|[<-|[<-|[<-|[<-|[<-|[<-|[<-|[]]]]]]]]]];
      (eexists; split; [reflexivity|]);
      try (eexists; reflexivity).
    + apply Loops.clean_education_total.
    + apply Loops.clean_experience_total.
    + apply Loops.clean_skills_total.
  - intros col text Hcol Hbad. unfold list_columns in Hcol. simpl in Hcol.
    pose proof (Loops.parsed_list_malformed le text Hbad) as Hnone.
    destruct Hcol as [<-|[<-|[<-|[]]]].
    + rewrite Idempotence.normalize_education. unfold clean_education.
      rewrite Hnone. reflexivity.
    + rewrite Idempotence.normalize_experience. unfold clean_experience.
      rewrite Hnone. reflexivity.
    + rewrite Idempotence.normalize_skills. unfold clean_skills.
      rewrite Hnone. reflexivity.
  - apply Loops.get_cleaner_unknown.
Qed.

Lemma normalize_total_witness :
  (exists f, get_cleaner Literal.eval "experience" = inr f
             /\ exists v, f "[{'title': 7}, 'x', {'company': {'name': 'Acme'}}]" = inr v)
  /\ normalize Literal.eval "skills" "[1, 2" = inr ""
  /\ get_cleaner Literal.eval "age"
     = inl (ValueError "No cleaner found for column 'age'").
Proof.
  destruct (normalize_total Literal.eval) as (Hdecl & Hbad & Hunknown).
  split; [|split].
  - apply Hdecl. simpl. tauto.
  - apply Hbad.
    + simpl. tauto.
    + left. eexists. reflexivity.
  - apply (Hunknown "age"). simpl. intros H.
    repeat (destruct H as [H|H]; [discriminate H|]). exact H.
Defined.

(* ------------------------------------------------------------------ *)
(** ** Joining with [" | "] and splitting at ["|"] *)
(* ------------------------------------------------------------------ *)

Module SplitFacts.

Import Str StrFacts.
Local Open Scope string_scope.

Lemma append_assoc : forall a b c : string, (a ++ b) ++ c = a ++ (b ++ c).
Proof. induction a as [|x a IH]; intros b c; simpl; [reflexivity|]. rewrite IH. reflexivity. Qed.

Lemma bar_free_chars : forall s,
  bar_free s = true -> all_chars (fun a => negb (Ascii.eqb a "|")) s = true.
Proof.
  unfold bar_free. induction s as [|a s IH]; intros H; [reflexivity|].
  cbn [contains String.prefix] in H. cbn [all_chars].
  destruct (ascii_dec "|" a) as [E|N].
  - subst a. destruct s; discriminate H.
  - simpl in H. rewrite (IH H), andb_true_r.
    destruct (Ascii.eqb_spec a "|"); [congruence|reflexivity].
Qed.

Lemma split_cons : forall sep s, exists p ps, split sep s = p :: ps.
Proof.
  intros sep s. destruct s as [|c s]; simpl; [eauto|].
  destruct (Ascii.eqb c sep); [eauto|]. destruct (split sep s); eauto.
Qed.

Lemma split_app : forall sep a b,
  all_chars (fun x => negb (Ascii.eqb x sep)) a = true ->
  split sep (a ++ String sep b) = a :: split sep b.
Proof.
  intros sep. induction a as [|c a IH]; intros b H.
  - simpl. rewrite Ascii.eqb_refl. reflexivity.
  - cbn [all_chars] in H. apply andb_true_iff in H. destruct H as [Hc Ha].
    apply negb_true_iff in Hc.
    change (String c a ++ String sep b) with (String c (a ++ String sep b)).
    cbn [split]. rewrite Hc, (IH b Ha). reflexivity.
Qed.

Lemma split_whole : forall sep a,
  all_chars (fun x => negb (Ascii.eqb x sep)) a = true -> split sep a = [a].
Proof.
  intros sep. induction a as [|c a IH]; intros H; [reflexivity|].
  cbn [all_chars] in H. apply andb_true_iff in H. destruct H as [Hc Ha].
  apply negb_true_iff in Hc. cbn [split]. rewrite Hc, (IH Ha). reflexivity.
Qed.

Lemma all_chars_append_blank (p : ascii -> bool) : forall s,
  p " "%char = true -> all_chars p s = true -> all_chars p (s ++ " ") = true.
Proof.
  intros s Hb Hs. rewrite StrFacts.all_chars_app, Hs. simpl. rewrite Hb. reflexivity.
Qed.

(** The pieces of the joined names, stripped, are the names. *)
Lemma split_join : forall names n,
  Forall stripped_name (n :: names) ->
  Forall (fun x => bar_free x = true) (n :: names) ->
  map strip (split "|" (join " | " (n :: names))) = n :: names
  /\ Forall (fun piece => truthy (strip piece) = true) (split "|" (join " | " (n :: names))).
Proof.
  induction names as [|m names IH]; intros n Hs Hb.
  - inversion Hs as [|? ? [Hn Ht] _]; subst. inversion Hb as [|? ? Hf _]; subst.
    unfold join. cbn [String.concat].
    rewrite (split_whole "|" n (bar_free_chars n Hf)). simpl. rewrite Hn.
    split; [reflexivity|]. constructor; [rewrite Hn; exact Ht|constructor].
  - inversion Hs as [|? ? [Hn Ht] Hs']; subst. inversion Hb as [|? ? Hf Hb']; subst.
    destruct (IH m Hs' Hb') as [IHm IHt].
    unfold join in *.
    change (String.concat " | " (n :: m :: names))
      with (n ++ " | " ++ String.concat " | " (m :: names)).
    set (X := String.concat " | " (m :: names)) in *.
    change (n ++ " | " ++ X) with (n ++ (" " ++ String "|" (String " " X))).
    rewrite <- append_assoc.
    rewrite split_app
      by (apply all_chars_append_blank; [reflexivity|apply bar_free_chars, Hf]).
    change (split "|" (String " " X))
      with (match split "|" X with
            | [] => [String " " EmptyString]
            | p :: ps => String " " p :: ps
            end).
    destruct (split "|" X) as [|p ps] eqn:E.
    { destruct (split_cons "|" X) as (p & ps & E'). congruence. }
    cbn [map] in *. rewrite StrFacts.strip_blank_cons, (StrFacts.strip_app_blank n Hn Ht).
    inversion IHt as [|? ? Hp Hps]; subst.
    split.
    + rewrite IHm. reflexivity.
    + constructor; [rewrite (StrFacts.strip_app_blank n Hn Ht); exact Ht|].
      constructor; [rewrite StrFacts.strip_blank_cons; exact Hp|exact Hps].
Qed.

Lemma filter_all {A : Type} (p : A -> bool) : forall l,
  Forall (fun x => p x = true) l -> filter p l = l.
Proof.
  induction l as [|x l IH]; intros H; [reflexivity|].
  inversion H; subst. simpl. rewrite H2, IH; auto.
Qed.

Lemma truthy_join : forall n names, truthy n = true -> truthy (join " | " (n :: names)) = true.
Proof.
  intros [|c n] names H; [discriminate|].
  unfold join. destruct names; reflexivity.
Qed.

(** Splitting what was joined gives the names back when none has a bar. *)
Lemma split_items_join : forall names,
  Forall stripped_name names ->
  Forall (fun x => bar_free x = true) names ->
  (if truthy (join " | " names) then Ingest.split_items (join " | " names) else [])
  = names.
Proof.
  intros [|n names] Hs Hb; [reflexivity|].
  inversion Hs as [|? ? [Hn Ht] _]; subst.
  rewrite (truthy_join n names Ht).
  destruct (split_join names n Hs Hb) as [Hmap Hall].
  unfold Ingest.split_items. rewrite (filter_all _ _ Hall). exact Hmap.
Qed.

End SplitFacts.

(* ------------------------------------------------------------------ *)
(** ** The ingestion pipeline *)
(* ------------------------------------------------------------------ *)

Module IngestFacts.

Import Ingest.








Section Docs.

Variable literal_eval : string -> Exc pyobj.

Lemma cleaners_for_columns :
  cleaners_for literal_eval columns = inr (cleaners_table literal_eval).
Proof. reflexivity. Qed.

(** The document of a row, field by field. *)
Lemma row_doc_fields : forall row e x s,
  clean_education literal_eval (row_get_str row "education") = inr e ->
  clean_experience literal_eval (row_get_str row "experience") = inr x ->
  clean_skills literal_eval (row_get_str row "skills") = inr s ->
  row_doc (cleaners_table literal_eval) row
  = inr [ ("full_name", Text (clean_full_name (row_get_str row "full_name")));
          ("job_title", Text (clean_job_title (row_get_str row "job_title")));
          ("industry", Text (clean_industry (row_get_str row "industry")));
          ("summary", Text (clean_summary (row_get_str row "summary")));
          ("location_country", Text (clean_location_country (row_get_str row "location_country")));
          ("education", Keywords (keyword_items e));
          ("experience", Keywords (keyword_items x));
          ("skills", Keywords (keyword_items s));
          ("job_summary", Text (clean_job_summary (row_get_str row "job_summary"))) ].
Proof.
  intros row e x s He Hx Hs.
  unfold row_doc, columns. cbn [for_each].
  unfold doc_column, cleaners_table, subscript, total.
  cbn [assoc String.eqb Ascii.eqb Bool.eqb bind ret mem existsb KEYWORD_COLUMNS orb andb dict_set].
  rewrite He, Hx, Hs. unfold keyword_items, bind, ret.
  destruct (Str.truthy e), (Str.truthy x), (Str.truthy s); reflexivity.
Qed.

Lemma row_doc_total : forall row, exists doc, row_doc (cleaners_table literal_eval) row = inr doc.
Proof.
  intros row.
  destruct (Loops.clean_education_total literal_eval (row_get_str row "education")) as [e He].
  destruct (Loops.clean_experience_total literal_eval (row_get_str row "experience")) as [x Hx].
  destruct (Loops.clean_skills_total literal_eval (row_get_str row "skills")) as [s Hs].
  rewrite (row_doc_fields row e x s He Hx Hs). eexists; reflexivity.
Qed.


End Docs.

End IngestFacts.

Lemma projection_stripped : forall items,
  Forall (fun n => Str.strip n = n) (EducationSpec.projection items).
Proof.
  induction items as [|item items IH]; simpl; [constructor|].
  destruct (EducationSpec.school_name item) as [n|] eqn:E; [|exact IH].
  constructor; [|exact IH].
  unfold EducationSpec.school_name in E.
  destruct item as [| | | | |fields|]; try discriminate.
  destruct (lookup_str "school" fields) as [[| | | | |school|]|]; try discriminate.
  destruct (lookup_str "name" school) as [[name| | | | | |]|]; try discriminate.
  inversion E. apply StrFacts.strip_idem.
Qed.

Lemma filter_truthy_stripped : forall l,
  Forall (fun n => Str.strip n = n) l ->
  Forall stripped_name (filter Str.truthy l).
Proof.
  induction l as [|n l IH]; intros H; simpl; [constructor|].
  inversion H; subst. destruct (Str.truthy n) eqn:E; [|auto].
  constructor; [split; assumption|auto].
Qed.

Lemma education_extracted_spec : forall literal_eval text,
  clean_education literal_eval text
  = inr (Str.join " | " (education_extracted literal_eval text))
  /\ Forall stripped_name (education_extracted literal_eval text).
Proof.
  intros le text. unfold clean_education, education_extracted.
  destruct (parsed_list le text) as [data|] eqn:E; [|split; [reflexivity|constructor]].
  destruct (Loops.parsed_list_is_list le _ _ E) as [items ->].
  unfold education_names. cbn [py_iter bind ret].
  rewrite (education_loop items []). split; [reflexivity|].
  apply filter_truthy_stripped, projection_stripped.
Qed.

(* ------------------------------------------------------------------ *)
(** ** What the pipeline indexes *)
(* ------------------------------------------------------------------ *)




(** C3, as the code has it.  The education field of a document is a
    sequence of strings: the pieces of the joined names between bars,
    stripped, without the empty ones.  It is the sequence of extracted
    names whenever none of them has a bar in it. *)
Theorem education_field_items :
  forall (literal_eval : string -> Exc pyobj) (row : Ingest.Row) (doc : Ingest.Doc),
    Ingest.row_doc (cleaners_table literal_eval) row = inr doc ->
    let names := education_extracted literal_eval (Ingest.row_get_str row "education") in
    exists items,
      assoc "education" doc = Some (Ingest.Keywords items)
      /\ items = keyword_items (Str.join " | " names)
      /\ (Forall (fun n => bar_free n = true) names -> items = names).
Proof.
  intros le row doc Hdoc names.
  destruct (education_extracted_spec le (Ingest.row_get_str row "education")) as [He Hs].
  destruct (Loops.clean_experience_total le (Ingest.row_get_str row "experience")) as [x Hx].
  destruct (Loops.clean_skills_total le (Ingest.row_get_str row "skills")) as [s Hsk].
  rewrite (IngestFacts.row_doc_fields le row _ x s He Hx Hsk) in Hdoc.
  inversion Hdoc; subst doc. clear Hdoc.
  eexists. split; [reflexivity|]. split; [reflexivity|].
  intros Hbar. apply SplitFacts.split_items_join; assumption.
Qed.

Lemma education_field_items_witness :
  exists items,
    assoc "education" IngestExamples.jane_doc = Some (Ingest.Keywords items)
    /\ items = ["MIT"; "Cairo Univ"].
Proof.
  destruct (education_field_items Literal.eval IngestExamples.jane
              IngestExamples.jane_doc eq_refl) as (items & Hfield & _ & Hnames).
  exists items. split; [exact Hfield|].
  apply Hnames. vm_compute. repeat constructor.
Defined.

(** C3 as stated fails on a name with a bar in it: one extracted name, two
    elements in the document. *)
Lemma education_name_with_bar_is_split :
  education_extracted Literal.eval (Ingest.row_get_str IngestExamples.jean "education")
  = ["Lycee Hoche | Annexe"]
  /\ match Ingest.row_doc (cleaners_table Literal.eval) IngestExamples.jean with
     | inr doc => assoc "education" doc
     | inl _ => None
     end = Some (Ingest.Keywords ["Lycee Hoche"; "Annexe"]).
Proof. split; vm_compute; reflexivity. Qed.

(* ------------------------------------------------------------------ *)
(** ** The query builders *)
(* ------------------------------------------------------------------ *)

Module SearchFacts.

Import Search.

Lemma forallb_declared : forall columns,
  forallb (fun col => mem col ALL_COLUMNS) columns = true <-> Forall declared columns.
Proof.
  intros columns. rewrite forallb_forall, Forall_forall. reflexivity.
Qed.

Lemma invalid_columns_nil : forall columns,
  invalid_columns columns = [] <-> Forall declared columns.
Proof.
  unfold invalid_columns, declared. induction columns as [|c cs IH].
  - split; constructor.
  - cbn [filter]. destruct (mem c ALL_COLUMNS) eqn:E; cbn [negb].
    + split; intros H.
      * constructor; [exact E|apply IH, H].
      * inversion H; subst. apply IH. assumption.
    + split; [discriminate|]. intros H. inversion H. congruence.
Qed.

Lemma mem_In : forall x l, mem x l = true <-> In x l.
Proof.
  intros x l. unfold mem. rewrite existsb_exists. split.
  - intros (y & Hy & E). apply String.eqb_eq in E. subst. exact Hy.
  - intros H. exists x. split; [exact H|apply String.eqb_refl].
Qed.

(** The keys of a dict after [d[k] = v]. *)
Lemma dict_set_keys {V : Type} : forall (d : list (string * V)) k v x,
  In x (map fst (dict_set k v d)) <-> x = k \/ In x (map fst d).
Proof.
  induction d as [|[k' v'] d IH]; intros k v x; simpl.
  - intuition.
  - destruct (String.eqb_spec k' k) as [->|N]; simpl.
    + intuition.
    + rewrite IH. intuition.
Qed.

Lemma fold_dict_set_keys : forall (cols : list string) (d : list (string * unit)) x,
  In x (map fst (fold_left (fun fields col => dict_set col tt fields) cols d))
  <-> In x cols \/ In x (map fst d).
Proof.
  induction cols as [|c cols IH]; intros d x; simpl.
  - intuition.
  - rewrite IH, dict_set_keys. intuition.
Qed.

(** The fields named in the highlight directive. *)
Lemma highlight_fields_keys : forall cols x,
  In x (map fst (highlight_fields cols)) <-> In x cols /\ mem x TEXT_COLUMNS = true.
Proof.
  intros cols x. unfold highlight_fields.
  rewrite fold_dict_set_keys, filter_In. simpl. intuition.
Qed.

Lemma keyword_not_text : forall x, In x KEYWORD_COLUMNS -> mem x TEXT_COLUMNS = false.
Proof.
  intros x H. simpl in H. destruct H as [<-|[<-|[<-|[]]]]; reflexivity.
Qed.

(** The loop of [advanced_search] stops at the first field that is not
    declared. *)
Lemma must_clauses_invalid : forall pre field value post acc,
  Forall declared (map fst pre) ->
  mem field ALL_COLUMNS = false ->
  for_each must_clause (pre ++ (field, value) :: post) acc
  = inl (ValueError ("Invalid field: " ++ field)%string).
Proof.
  induction pre as [|[f v] pre IH]; intros field value post acc Hpre Hbad.
  2: cbn [map] in Hpre.
  - cbn [app for_each]. unfold must_clause at 1. rewrite Hbad. reflexivity.
  - inversion Hpre as [|? ? Hf Hpre']; subst. cbn [fst] in Hf. unfold declared in Hf.
    change (((f, v) :: pre) ++ (field, value) :: post)
      with ((f, v) :: (pre ++ (field, value) :: post)).
    cbn [for_each]. unfold must_clause at 1. rewrite Hf. cbn [negb].
    destruct (mem f TEXT_COLUMNS); cbn [bind ret]; apply IH; assumption.
Qed.

Lemma must_clauses_valid : forall field_queries acc,
  Forall declared (map fst field_queries) ->
  exists clauses, for_each must_clause field_queries acc = inr clauses.
Proof.
  induction field_queries as [|[f v] fq IH]; intros acc H.
  - eexists; reflexivity.
  - cbn [map] in H. inversion H as [|? ? Hf H']; subst. cbn [fst] in Hf.
    unfold declared in Hf.
    cbn [for_each]. unfold must_clause at 1. rewrite Hf. cbn [negb].
    destruct (mem f TEXT_COLUMNS); cbn [bind ret]; apply IH; assumption.
Qed.

Section Requests.

Variable es_search : Body -> Exc Response.

Lemma search_columns_valid : forall columns q size,
  Forall declared columns ->
  search_columns es_search columns q size = run_search es_search (or_body columns q size).
Proof.
  intros columns q size H. unfold search_columns.
  rewrite (proj2 (forallb_declared columns) H). reflexivity.
Qed.

Lemma search_columns_invalid : forall columns q size,
  invalid_columns columns <> [] ->
  search_columns es_search columns q size
  = ([], inl (ValueError ("Invalid columns: " ++ Repr.repr_list (invalid_columns columns))%string)).
Proof.
  intros columns q size H. unfold search_columns.
  destruct (forallb (fun col => mem col ALL_COLUMNS) columns) eqn:E; [|reflexivity].
  exfalso. apply H. apply invalid_columns_nil, forallb_declared, E.
Qed.

(** The body [advanced_search] sends for a non-empty mapping of declared
    fields. *)
Lemma advanced_search_valid : forall field_queries size,
  field_queries <> [] ->
  Forall declared (map fst field_queries) ->
  exists must_clauses,
    advanced_search es_search field_queries size
    = run_search es_search
        {| query := Must must_clauses;
           highlight := {| hl_fields := highlight_fields (map fst field_queries);
                           pre_tags := ["<em>"];
                           post_tags := ["</em>"] |};
           size := arg 10%Z size |}.
Proof.
  intros fq size Hne H. destruct (must_clauses_valid fq [] H) as [clauses Hc].
  exists clauses. unfold advanced_search. destruct fq as [|item fq]; [congruence|].
  rewrite Hc. reflexivity.
Qed.

End Requests.

End SearchFacts.

(** C4, as the code has it.  A request that names a column that is not
    declared is rejected before the store is called.  [search_columns]
    raises an error whose message lists every such column of the request,
    in request order; [advanced_search] raises at the first such field of
    the mapping and its message names that field. *)
Theorem invalid_column_rejected :
  forall es_search : Search.Body -> Exc Search.Response,
    (forall columns q size,
        invalid_columns columns <> [] ->
        Search.search_columns es_search columns q size
        = ([], inl (ValueError ("Invalid columns: "
                                ++ Repr.repr_list (invalid_columns columns))%string)))
    /\ (forall pre field value post size,
        Forall declared (map fst pre) ->
        mem field Search.ALL_COLUMNS = false ->
        Search.advanced_search es_search (pre ++ (field, value) :: post) size
        = ([], inl (ValueError ("Invalid field: " ++ field)%string))).
Proof.
  intros es. split.
  - apply SearchFacts.search_columns_invalid.
  - intros pre field value post size Hpre Hbad. unfold Search.advanced_search.
    rewrite (SearchFacts.must_clauses_invalid pre field value post [] Hpre Hbad).
    destruct pre; reflexivity.
Qed.

Lemma invalid_column_rejected_witness :
  Search.search_columns empty_store
    ["full_name"; "invalid_col"; "skills"; "age"] "Python" None
  = ([], inl (ValueError "Invalid columns: ['invalid_col', 'age']"))
  /\ Search.advanced_search empty_store
       ([("summary", "ali")] ++ ("age", "41") :: [("skills", "python")]) (Some 5%Z)
     = ([], inl (ValueError "Invalid field: age")).
Proof.
  destruct (invalid_column_rejected empty_store) as [Hor Hand].
  split.
  - apply (Hor ["full_name"; "invalid_col"; "skills"; "age"] "Python" None).
    vm_compute. discriminate.
  - apply (Hand [("summary", "ali")] "age" "41" [("skills", "python")] (Some 5%Z)).
    + repeat constructor.
    + reflexivity.
Defined.

(** C4 as stated fails in AND-mode: with two fields that are not declared,
    the message names the first and not the second. *)
Lemma advanced_search_names_first_invalid_field :
  Search.advanced_search empty_store
    [("nickname", "al"); ("salary", "high")] None
  = ([], inl (ValueError "Invalid field: nickname"))
  /\ Str.contains "salary" "Invalid field: nickname" = false.
Proof. split; reflexivity. Qed.

(** C7.  [advanced_search] with an empty mapping raises before it calls
    the store, whatever the store and the size. *)
Theorem advanced_search_empty_mapping :
  forall (es_search : Search.Body -> Exc Search.Response) (size : option Z),
    Search.advanced_search es_search [] size
    = ([], inl (ValueError "No search fields provided")).
Proof. intros es size. reflexivity. Qed.

(** C8.  For a request whose columns are all declared, the fields of the
    highlight directive of the body sent to the store are the text columns
    of the request, and no keyword column is among them; in both
    functions. *)
Theorem highlight_names_text_columns :
  forall es_search : Search.Body -> Exc Search.Response,
    (forall columns q size,
        Forall declared columns ->
        exists body,
          fst (Search.search_columns es_search columns q size) = [body]
          /\ (forall col,
                In col (map fst (Search.hl_fields (Search.highlight body)))
                <-> In col columns /\ In col Search.TEXT_COLUMNS)
          /\ (forall col,
                In col Search.KEYWORD_COLUMNS ->
                ~ In col (map fst (Search.hl_fields (Search.highlight body)))))
    /\ (forall field_queries size,
        field_queries <> [] ->
        Forall declared (map fst field_queries) ->
        exists body,
          fst (Search.advanced_search es_search field_queries size) = [body]
          /\ (forall col,
                In col (map fst (Search.hl_fields (Search.highlight body)))
                <-> In col (map fst field_queries) /\ In col Search.TEXT_COLUMNS)
          /\ (forall col,
                In col Search.KEYWORD_COLUMNS ->
                ~ In col (map fst (Search.hl_fields (Search.highlight body))))).
Proof.
  intros es. split.
  - intros columns q size H.
    rewrite (SearchFacts.search_columns_valid es columns q size H).
    eexists. split; [reflexivity|]. cbn [Search.highlight Search.hl_fields or_body].
    split.
    + intros col. rewrite SearchFacts.highlight_fields_keys, SearchFacts.mem_In. reflexivity.
    + intros col Hk Hin. apply SearchFacts.highlight_fields_keys in Hin.
      rewrite (SearchFacts.keyword_not_text col Hk) in Hin. destruct Hin. discriminate.
  - intros fq size Hne H.
    destruct (SearchFacts.advanced_search_valid es fq size Hne H) as [clauses ->].
    eexists. split; [reflexivity|]. cbn [Search.highlight Search.hl_fields].
    split.
    + intros col. rewrite SearchFacts.highlight_fields_keys, SearchFacts.mem_In. reflexivity.
    + intros col Hk Hin. apply SearchFacts.highlight_fields_keys in Hin.
      rewrite (SearchFacts.keyword_not_text col Hk) in Hin. destruct Hin. discriminate.
Qed.

Lemma highlight_names_text_columns_witness :
  (exists body,
      fst (Search.search_columns empty_store ["full_name"; "skills"] "Python" None)
      = [body]
      /\ In "full_name" (map fst (Search.hl_fields (Search.highlight body)))
      /\ ~ In "skills" (map fst (Search.hl_fields (Search.highlight body))))
  /\ (exists body,
      fst (Search.advanced_search empty_store
             [("summary", "ali"); ("job_summary", "ahmad"); ("skills", "python")] (Some 5%Z))
      = [body]
      /\ In "job_summary" (map fst (Search.hl_fields (Search.highlight body)))
      /\ ~ In "skills" (map fst (Search.hl_fields (Search.highlight body)))).
Proof.
  destruct (highlight_names_text_columns empty_store) as [Hor Hand].
  split.
  - destruct (Hor ["full_name"; "skills"] "Python" None) as (body & Hb & Hin & Hout).
    + repeat constructor.
    + exists body. split; [exact Hb|]. split.
      * apply Hin. simpl. tauto.
      * apply Hout. simpl. tauto.
  - destruct (Hand [("summary", "ali"); ("job_summary", "ahmad"); ("skills", "python")]
                   (Some 5%Z)) as (body & Hb & Hin & Hout).
    + discriminate.
    + repeat constructor.
    + exists body. split; [exact Hb|]. split.
      * apply Hin. simpl. tauto.
      * apply Hout. simpl. tauto.
Defined.

(** C9.  Neither function looks at the size.  For a request that passes
    the checks on its columns, the body sent to the store carries the
    given integer as its size, whatever its sign, and 10 when none is
    given; what the call returns or raises from there is what the store
    returns or raises.  A request that fails those checks fails the same
    way for every size. *)
Theorem size_passed_verbatim :
  forall es_search : Search.Body -> Exc Search.Response,
    (forall columns q size,
        Forall declared columns ->
        exists body,
          Search.search_columns es_search columns q size = Search.run_search es_search body
          /\ Search.size body = match size with Some n => n | None => 10%Z end)
    /\ (forall field_queries size,
        field_queries <> [] ->
        Forall declared (map fst field_queries) ->
        exists body,
          Search.advanced_search es_search field_queries size = Search.run_search es_search body
          /\ Search.size body = match size with Some n => n | None => 10%Z end)
    /\ (forall columns q size size',
        ~ Forall declared columns ->
        Search.search_columns es_search columns q size
        = Search.search_columns es_search columns q size')
    /\ (forall field_queries size size',
        field_queries = [] \/ ~ Forall declared (map fst field_queries) ->
        Search.advanced_search es_search field_queries size
        = Search.advanced_search es_search field_queries size').
Proof.
  intros es. split; [|split; [|split]].
  - intros columns q size H. exists (or_body columns q size). split.
    + apply SearchFacts.search_columns_valid, H.
    + destruct size; reflexivity.
  - intros fq size Hne H.
    destruct (SearchFacts.advanced_search_valid es fq size Hne H) as [clauses ->].
    eexists. split; [reflexivity|]. destruct size; reflexivity.
  - intros columns q size size' H.
    assert (Hinv : invalid_columns columns <> []).
    { intros E. apply H, SearchFacts.invalid_columns_nil, E. }
    rewrite !SearchFacts.search_columns_invalid by exact Hinv. reflexivity.
  - intros fq size size' [->|H]; [reflexivity|].
    unfold Search.advanced_search.
    destruct (for_each Search.must_clause fq []) as [e|clauses] eqn:E.
    + destruct fq; reflexivity.
    + exfalso. apply H. clear H size size'.
      revert E. generalize (@nil Search.Clause). revert clauses.
      induction fq as [|[f v] fq IH]; intros clauses acc E; [constructor|].
      cbn [for_each] in E. unfold Search.must_clause at 1 in E.
      destruct (mem f Search.ALL_COLUMNS) eqn:Hf; cbn [negb] in E; [|discriminate].
      cbn [map fst]. constructor; [exact Hf|].
      destruct (mem f Search.TEXT_COLUMNS); cbn [bind ret] in E; eapply IH; exact E.
Qed.

Lemma size_passed_verbatim_witness :
  (exists body,
      Search.search_columns empty_store ["full_name"] "randall evans" (Some (-3)%Z)
      = Search.run_search empty_store body
      /\ Search.size body = (-3)%Z)
  /\ (exists body,
      Search.advanced_search empty_store [("summary", "ali")] (Some 0%Z)
      = Search.run_search empty_store body
      /\ Search.size body = 0%Z)
  /\ Search.search_columns empty_store ["age"] "x" (Some (-1)%Z)
     = Search.search_columns empty_store ["age"] "x" None
  /\ Search.advanced_search empty_store [] (Some (-1)%Z)
     = Search.advanced_search empty_store [] None.
Proof.
  destruct (size_passed_verbatim empty_store) as (Hor & Hand & Hbad & Hbad').
  split; [|split; [|split]].
  - apply (Hor ["full_name"] "randall evans" (Some (-3)%Z)). repeat constructor.
  - apply (Hand [("summary", "ali")] (Some 0%Z)); [discriminate|repeat constructor].
  - apply Hbad. intros H. inversion H. discriminate.
  - apply Hbad'. left. reflexivity.
Defined.

(* ------------------------------------------------------------------ *)
(** ** More on the text cleaners *)
(* ------------------------------------------------------------------ *)

Module CleanerFacts.

Import Str.
Local Open Scope string_scope.

Lemma lstrip_all_space : forall s, all_chars Char.space s = true -> lstrip s = "".
Proof.
  induction s as [|c s IH]; [reflexivity|].
  cbn [all_chars lstrip]. intros H. apply andb_true_iff in H. destruct H as [Hc Hs].
  rewrite Hc. apply IH, Hs.
Qed.

Lemma strip_all_space : forall s, all_chars Char.space s = true -> strip s = "".
Proof. intros s H. unfold strip. rewrite (lstrip_all_space s H). reflexivity. Qed.

(** [c in s] for one character. *)
Lemma contains_char : forall c s,
  contains (String c "") s = negb (all_chars (fun a => negb (Ascii.eqb a c)) s).
Proof.
  intros c. induction s as [|a s IH]; [reflexivity|].
  cbn [contains String.prefix all_chars]. rewrite IH.
  destruct (ascii_dec c a) as [<-|N].
  - rewrite Ascii.eqb_refl. destruct s; reflexivity.
  - destruct (Ascii.eqb_spec a c) as [E|_]; [congruence|]. reflexivity.
Qed.

Lemma all_chars_lstrip_back (p : ascii -> bool) :
  (forall c, Char.space c = true -> p c = true) ->
  forall s, all_chars p (lstrip s) = true -> all_chars p s = true.
Proof.
  intros Hp. induction s as [|c s IH]; [reflexivity|].
  cbn [lstrip all_chars]. destruct (Char.space c) eqn:E; [|auto].
  intros H. rewrite (Hp c E), (IH H). reflexivity.
Qed.

Lemma all_chars_rstrip_back (p : ascii -> bool) :
  (forall c, Char.space c = true -> p c = true) ->
  forall s, all_chars p (rstrip s) = true -> all_chars p s = true.
Proof.
  intros Hp. induction s as [|c s IH]; [reflexivity|].
  cbn [rstrip all_chars]. destruct (rstrip s) as [|c' r] eqn:E.
  - destruct (Char.space c) eqn:Ec.
    + intros _. rewrite (Hp c Ec), IH; reflexivity.
    + cbn [all_chars]. intros H. apply andb_true_iff in H. destruct H as [Hc _].
      rewrite Hc, IH; reflexivity.
  - change (all_chars p (String c (String c' r)))
      with (p c && all_chars p (String c' r)).
    intros H. apply andb_true_iff in H. destruct H as [Hc Hr].
    rewrite Hc, (IH Hr). reflexivity.
Qed.

(** A character that is not whitespace is in the stripped text exactly when
    it is in the text. *)
Lemma contains_char_strip : forall c s,
  Char.space c = false ->
  contains (String c "") (strip s) = contains (String c "") s.
Proof.
  intros c s Hc. rewrite !contains_char. f_equal.
  assert (Hp : forall a, Char.space a = true -> negb (Ascii.eqb a c) = true).
  { intros a Ha. destruct (Ascii.eqb_spec a c) as [->|_]; [congruence|reflexivity]. }
  destruct (all_chars _ s) eqn:E.
  - apply StrFacts.all_chars_strip, E.
  - destruct (all_chars _ (strip s)) eqn:E'; [|reflexivity].
    unfold strip in E'. apply (all_chars_rstrip_back _ Hp) in E'.
    apply (all_chars_lstrip_back _ Hp) in E'. congruence.
Qed.

Lemma dead_not_nullable : forall r, dead r = true -> nullable r = false.
Proof.
  induction r as [| | p | a IHa b IHb | a IHa b IHb | a IHa]; simpl; intros H;
    try discriminate; try reflexivity.
  - apply orb_true_iff in H. destruct H as [H|H].
    + rewrite (IHa H). reflexivity.
    + rewrite (IHb H). apply andb_false_r.
  - apply andb_true_iff in H. destruct H as [Ha Hb]. rewrite (IHa Ha), (IHb Hb). reflexivity.
Qed.

Lemma dead_deriv : forall c r, dead r = true -> dead (deriv c r) = true.
Proof.
  intros c. induction r as [| | p | a IHa b IHb | a IHa b IHb | a IHa]; simpl; intros H;
    try discriminate; try reflexivity.
  - apply orb_true_iff in H. destruct H as [H|H].
    + rewrite (dead_not_nullable a H). simpl. rewrite (IHa H). reflexivity.
    + destruct (nullable a); simpl; rewrite ?(IHb H), H, ?orb_true_r; reflexivity.
  - apply andb_true_iff in H. destruct H as [Ha Hb]. rewrite (IHa Ha), (IHb Hb). reflexivity.
Qed.

Lemma dead_fullmatch : forall s r, dead r = true -> fullmatch r s = false.
Proof.
  induction s as [|c s IH]; intros r H; simpl.
  - apply dead_not_nullable, H.
  - apply IH, dead_deriv, H.
Qed.

Lemma dead_match : forall s r, dead r = true -> match_ r s = false.
Proof.
  induction s as [|c s IH]; intros r H; simpl; rewrite (dead_not_nullable r H); simpl.
  - reflexivity.
  - apply IH, dead_deriv, H.
Qed.

(** A drive letter needs a colon. *)
Lemma search_drive_needs_colon : forall s,
  all_chars (fun a => negb (Ascii.eqb a ":")) s = true -> search re_drive s = false.
Proof.
  induction s as [|c s IH]; [reflexivity|].
  intros H. cbn [all_chars] in H. apply andb_true_iff in H. destruct H as [_ Hs].
  cbn [search]. rewrite (IH Hs), orb_false_r.
  unfold re_drive. cbn [match_ nullable deriv andb orb].
  destruct (Char.letter c); [|apply dead_match; reflexivity].
  destruct s as [|c' s']; [reflexivity|].
  cbn [all_chars] in Hs. apply andb_true_iff in Hs. destruct Hs as [Hc' _].
  apply negb_true_iff in Hc'. rewrite Ascii.eqb_sym in Hc'.
  cbn [match_ nullable deriv andb orb Chr]. rewrite Hc'.
  apply dead_match. reflexivity.
Qed.

(** A file extension needs a dot. *)
Lemma search_ext_needs_dot : forall s,
  all_chars (fun a => negb (Ascii.eqb a ".")) s = true ->
  search_dollar re_file_ext s = false.
Proof.
  unfold re_file_ext. set (X := Alt _ _).
  induction s as [|c s IH]; [reflexivity|].
  intros H. cbn [all_chars] in H. apply andb_true_iff in H. destruct H as [Hc Hs].
  apply negb_true_iff in Hc. rewrite Ascii.eqb_sym in Hc.
  cbn [search_dollar]. rewrite (IH Hs), orb_false_r.
  cbn [fullmatch deriv nullable andb Chr]. rewrite Hc.
  rewrite !dead_fullmatch by reflexivity. reflexivity.
Qed.

Lemma sub_cls_fixed (p : ascii -> bool) : forall s,
  all_chars (fun c => negb (p c)) s = true -> sub_cls p "" s = s.
Proof.
  induction s as [|c s IH]; [reflexivity|].
  cbn [all_chars sub_cls]. intros H. apply andb_true_iff in H. destruct H as [Hc Hs].
  apply negb_true_iff in Hc. rewrite Hc, (IH Hs). reflexivity.
Qed.

(** What [clean_full_name] returns is made of letters and single blanks. *)
Lemma clean_full_name_normal : forall x,
  all_chars letter_or_blank (clean_full_name x) = true
  /\ collapsed (clean_full_name x) = true.
Proof.
  intros x. unfold clean_full_name.
  destruct (negb (truthy x)); [split; reflexivity|].
  destruct (_ || _ || _ || _); [split; reflexivity|].
  set (out := sub_plus Char.space " " _).
  assert (H1 : all_chars letter_or_blank out = true).
  { apply ReFacts.sub_plus_chars with (P := fun c => negb (not_letter_space c)).
    - intros c Hc Hs. unfold not_letter_space in Hc. rewrite negb_involutive in Hc.
      unfold letter_or_blank. rewrite Hs, orb_false_r in Hc. rewrite Hc. reflexivity.
    - reflexivity.
    - apply ReFacts.sub_cls_keeps. }
  assert (H2 : collapsed out = true) by apply ReFacts.sub_plus_collapsed.
  destruct (truthy out); split; auto.
Qed.

Lemma letter_or_blank_plain : forall c, letter_or_blank c = true ->
  negb (Ascii.eqb c "\") = true /\ negb (Ascii.eqb c "/") = true
  /\ negb (Ascii.eqb c ":") = true /\ negb (Ascii.eqb c ".") = true
  /\ negb (not_letter_space c) = true.
Proof. intros c. StrFacts.by_char c; repeat split. Qed.

(** On letters and single blanks the cleaner does nothing but strip. *)
Lemma clean_full_name_strips : forall y,
  all_chars letter_or_blank y = true -> collapsed y = true ->
  clean_full_name y = strip y.
Proof.
  intros y Hc Hn. destruct y as [|c y']; [reflexivity|].
  set (y := String c y') in *.
  unfold clean_full_name. change (negb (truthy y)) with false. cbv iota zeta.
  pose proof (StrFacts.all_chars_strip _ _ Hc) as Hs.
  assert (Hpart : forall q, (forall a, letter_or_blank a = true -> q a = true) ->
                            all_chars q (strip y) = true).
  { intros q Hq. revert Hs. apply StrFacts.all_chars_impl, Hq. }
  rewrite !contains_char.
  rewrite (Hpart (fun a => negb (Ascii.eqb a "\")))
    by (intros a Ha; apply (letter_or_blank_plain a Ha)).
  rewrite (Hpart (fun a => negb (Ascii.eqb a "/")))
    by (intros a Ha; apply (letter_or_blank_plain a Ha)).
  rewrite search_drive_needs_colon
    by (apply Hpart; intros a Ha; apply (letter_or_blank_plain a Ha)).
  rewrite search_ext_needs_dot
    by (apply Hpart; intros a Ha; apply (letter_or_blank_plain a Ha)).
  cbn [negb orb].
  rewrite sub_cls_fixed
    by (apply Hpart; intros a Ha; apply (letter_or_blank_plain a Ha)).
  rewrite (ReFacts.collapsed_fixed _ (ReFacts.collapsed_strip _ Hn)).
  destruct (strip y); reflexivity.
Qed.

End CleanerFacts.

(** X1.  An empty or whitespace-only cell cleans to the empty string in
    every one of the nine columns, whatever [ast.literal_eval] does. *)
Theorem blank_cell_cleans_to_empty :
  forall (literal_eval : string -> Exc pyobj) (col text : string),
    In col Ingest.columns ->
    Str.all_chars Char.space text = true ->
    normalize literal_eval col text = inr "".
Proof.
  intros le col text Hcol Hsp.
  pose proof (CleanerFacts.strip_all_space text Hsp) as Hs.
  unfold Ingest.columns in Hcol. simpl in Hcol.
  destruct Hcol as [<-|[<-|[<-|[<-|[<-|[<-|[<-|[<-|[<-|[]]]]]]]]]].
  - rewrite Idempotence.normalize_full_name. unfold clean_full_name.
    destruct text; [reflexivity|]. cbn [Str.truthy negb]. cbv zeta. rewrite Hs. reflexivity.
  - rewrite Idempotence.normalize_job_title. unfold clean_job_title.
    destruct text; [reflexivity|]. cbn [Str.truthy negb]. cbv zeta. rewrite Hs. reflexivity.
  - rewrite Idempotence.normalize_industry. unfold clean_industry.
    destruct text; [reflexivity|]. cbn [Str.truthy negb]. cbv zeta. rewrite Hs. reflexivity.
  - rewrite Idempotence.normalize_summary. unfold clean_summary.
    destruct text; [reflexivity|]. cbn [Str.truthy negb]. cbv zeta. rewrite Hs. reflexivity.
  - rewrite Idempotence.normalize_location_country. unfold clean_location_country.
    destruct text; [reflexivity|]. cbn [Str.truthy negb]. cbv zeta. rewrite Hs. reflexivity.
  - rewrite Idempotence.normalize_education. unfold clean_education.
    rewrite Idempotence.parsed_list_unbracketed; [reflexivity|]. rewrite Hs. reflexivity.
  - rewrite Idempotence.normalize_experience. unfold clean_experience.
    rewrite Idempotence.parsed_list_unbracketed; [reflexivity|]. rewrite Hs. reflexivity.
  - rewrite Idempotence.normalize_skills. unfold clean_skills.
    rewrite Idempotence.parsed_list_unbracketed; [reflexivity|]. rewrite Hs. reflexivity.
  - rewrite Idempotence.normalize_job_summary. unfold clean_job_summary.
    destruct text; [reflexivity|]. cbn [Str.truthy negb]. cbv zeta. rewrite Hs. reflexivity.
Qed.

Lemma blank_cell_cleans_to_empty_witness :
  normalize Literal.eval "summary" (String " " (String (ascii_of_N 9) " ")) = inr ""
  /\ normalize Literal.eval "skills" "   " = inr "".
Proof.
  split.
  - apply blank_cell_cleans_to_empty; [simpl; tauto|reflexivity].
  - apply blank_cell_cleans_to_empty; [simpl; tauto|reflexivity].
Defined.

(** X2.  Applied to its own output, [clean_full_name] only strips it; so a
    third application changes nothing any more. *)
Theorem clean_full_name_again_strips : forall x : string,
  clean_full_name (clean_full_name x) = Str.strip (clean_full_name x)
  /\ clean_full_name (clean_full_name (clean_full_name x))
     = clean_full_name (clean_full_name x).
Proof.
  intros x. destruct (CleanerFacts.clean_full_name_normal x) as [Hc Hn].
  assert (H2 : clean_full_name (clean_full_name x) = Str.strip (clean_full_name x))
    by (apply CleanerFacts.clean_full_name_strips; assumption).
  split; [exact H2|].
  rewrite H2. rewrite CleanerFacts.clean_full_name_strips.
  - apply StrFacts.strip_idem.
  - apply StrFacts.all_chars_strip, Hc.
  - apply ReFacts.collapsed_strip, Hn.
Qed.

(** X3.  A name with a slash or a backslash anywhere in it is dropped. *)
Theorem clean_full_name_drops_paths : forall text : string,
  Str.contains "/" text || Str.contains "\" text = true ->
  clean_full_name text = "".
Proof.
  intros text H. unfold clean_full_name.
  destruct (negb (Str.truthy text)); [reflexivity|]. cbv zeta.
  rewrite !CleanerFacts.contains_char_strip by reflexivity.
  rewrite (orb_comm (Str.contains "\" text)), H. reflexivity.
Qed.

Lemma clean_full_name_drops_paths_witness :
  clean_full_name "home/jane doe" = "".
Proof. apply clean_full_name_drops_paths. reflexivity. Defined.

Lemma industry_output_chars : forall c,
  industry_char c = true -> (negb (Char.space c) || Ascii.eqb c " ") = true ->
  industry_output_char c = true.
Proof. intros c. StrFacts.by_char c. Qed.

Lemma collapsed_blanks : forall s,
  collapsed s = true ->
  Str.all_chars (fun c => negb (Char.space c) || Ascii.eqb c " ") s = true.
Proof.
  induction s as [|c s IH]; [reflexivity|].
  cbn [collapsed Str.all_chars]. intros H. apply andb_true_iff in H. destruct H as [Hc Hs].
  rewrite (IH Hs), andb_true_r. destruct (Char.space c); [|reflexivity].
  apply andb_true_iff in Hc. destruct Hc as [-> _]. reflexivity.
Qed.

Lemma all_chars_both (p q r : ascii -> bool) :
  (forall c, p c = true -> q c = true -> r c = true) ->
  forall s, Str.all_chars p s = true -> Str.all_chars q s = true -> Str.all_chars r s = true.
Proof.
  intros H. induction s as [|c s IH]; [reflexivity|].
  cbn [Str.all_chars]. intros Hp Hq.
  apply andb_true_iff in Hp. apply andb_true_iff in Hq.
  destruct Hp as [Hp Hps], Hq as [Hq Hqs].
  rewrite (H c Hp Hq), (IH Hps Hqs). reflexivity.
Qed.

(** X4.  What [clean_industry] returns has only ASCII letters, spaces,
    commas, ampersands and hyphens, no two spaces in a row, and no space at
    either end. *)
Theorem clean_industry_output : forall x : string,
  Str.all_chars industry_output_char (clean_industry x) = true
  /\ Str.contains "  " (clean_industry x) = false
  /\ Str.strip (clean_industry x) = clean_industry x.
Proof.
  intros x. destruct (Idempotence.clean_industry_normal x) as (Hs & Hc & Hn).
  split; [|split].
  - apply (all_chars_both _ _ _ industry_output_chars _ Hc (collapsed_blanks _ Hn)).
  - apply ReFacts.collapsed_no_double, Hn.
  - exact Hs.
Qed.

(* ------------------------------------------------------------------ *)
(** ** The experience and skills loops *)
(* ------------------------------------------------------------------ *)

Module ListFacts.

Import Str.
Local Open Scope string_scope.

Lemma experience_item_appends : forall acc item,
  experience_item acc item =
  inr (acc ++ match ExperienceSpec.entry item with Some e => [e] | None => [] end)%list.
Proof.
  intros acc item. unfold experience_item, ExperienceSpec.entry, ExperienceSpec.sub_name.
  destruct item as [s|z|b| |items|fields|r];
    cbn [isinstance_dict negb]; rewrite ?app_nil_r; try reflexivity.
  cbn [py_get]. cbv zeta.
  repeat match goal with
         | |- context [lookup_str ?k ?d] =>
             destruct (lookup_str k d) as [[?|?|?| |?|?|?]|];
             cbn [bind ret py_get py_strip isinstance_dict isinstance_str]
         end;
    repeat match goal with
           | |- context [truthy ?x] => destruct (truthy x) eqn:?; cbn [bind ret andb]
           end;
    rewrite ?app_nil_r; try reflexivity; try congruence.
Qed.

Lemma experience_loop : forall items acc,
  for_each experience_item items acc = inr (acc ++ ExperienceSpec.entries items)%list.
Proof.
  induction items as [|item items IH]; intros acc; cbn [for_each ExperienceSpec.entries].
  - rewrite app_nil_r. reflexivity.
  - rewrite experience_item_appends. cbn [bind]. rewrite IH.
    destruct (ExperienceSpec.entry item); rewrite <- ?app_assoc, ?app_nil_r; reflexivity.
Qed.

Lemma skills_item_appends : forall acc item,
  skills_item acc item =
  inr (acc ++ match SkillsSpec.kept item with Some s => [s] | None => [] end)%list.
Proof.
  intros acc item. unfold skills_item, SkillsSpec.kept.
  destruct item as [s|z|b| |items|fields|r];
    cbn [isinstance_str py_strip bind ret]; rewrite ?app_nil_r; try reflexivity.
  destruct (truthy (strip s)); cbn [negb andb]; rewrite ?app_nil_r; [|reflexivity].
  destruct (fullmatch re_phone (strip s)); cbn [negb]; rewrite ?app_nil_r; reflexivity.
Qed.

Lemma skills_loop : forall items acc,
  for_each skills_item items acc = inr (acc ++ SkillsSpec.survivors items)%list.
Proof.
  induction items as [|item items IH]; intros acc; cbn [for_each SkillsSpec.survivors].
  - rewrite app_nil_r. reflexivity.
  - rewrite skills_item_appends. cbn [bind]. rewrite IH.
    destruct (SkillsSpec.kept item); rewrite <- ?app_assoc, ?app_nil_r; reflexivity.
Qed.

(** Stripped names, seen from both ends. *)
Lemma stripped_name_ends : forall s,
  stripped_name s <-> (head_space s = false /\ rstrip s = s /\ truthy s = true).
Proof.
  intros s. unfold stripped_name. split.
  - intros [Hs Ht]. destruct (StrFacts.stripped_head s Hs Ht) as (c & s' & -> & Hc).
    split; [exact Hc|]. split; [|reflexivity].
    unfold strip in Hs. rewrite StrFacts.lstrip_fixed in Hs by exact Hc. exact Hs.
  - intros (Hh & Hr & Ht). split; [|exact Ht].
    unfold strip. rewrite (StrFacts.lstrip_fixed s Hh). exact Hr.
Qed.

Lemma rstrip_app : forall a b, truthy (rstrip b) = true -> rstrip (a ++ b) = a ++ rstrip b.
Proof.
  induction a as [|x a IH]; intros b Hb; [reflexivity|].
  change (String x a ++ b) with (String x (a ++ b)).
  cbn [rstrip]. rewrite (IH b Hb).
  change (String x a ++ rstrip b) with (String x (a ++ rstrip b)).
  destruct (a ++ rstrip b) eqn:E; [|reflexivity].
  destruct a; [|discriminate E]. simpl in E. rewrite E in Hb. discriminate.
Qed.

Lemma stripped_name_app : forall a sep b,
  stripped_name a -> stripped_name b -> stripped_name (a ++ sep ++ b).
Proof.
  intros a sep b Ha Hb. apply stripped_name_ends in Ha. apply stripped_name_ends in Hb.
  destruct Ha as (Hah & _ & Hat), Hb as (_ & Hbr & Hbt).
  apply stripped_name_ends. split; [|split].
  - destruct a; [discriminate|exact Hah].
  - rewrite <- SplitFacts.append_assoc, rstrip_app; rewrite Hbr; [reflexivity|exact Hbt].
  - destruct a; [discriminate|reflexivity].
Qed.

Lemma sub_name_stripped : forall key fields,
  truthy (ExperienceSpec.sub_name key fields) = true ->
  stripped_name (ExperienceSpec.sub_name key fields).
Proof.
  intros key fields H. split; [|exact H]. unfold ExperienceSpec.sub_name in *.
  destruct (lookup_str key fields) as [[s|z|b| |items|sub|r]|]; try discriminate.
  destruct (lookup_str "name" sub) as [[s|z|b| |items|d|r]|]; try discriminate.
  apply StrFacts.strip_idem.
Qed.

Lemma entries_stripped : forall items, Forall stripped_name (ExperienceSpec.entries items).
Proof.
  induction items as [|item items IH]; cbn [ExperienceSpec.entries]; [constructor|].
  destruct (ExperienceSpec.entry item) as [e|] eqn:E; [|exact IH].
  constructor; [|exact IH].
  unfold ExperienceSpec.entry in E. destruct item as [| | | | |fields|]; try discriminate.
  cbv zeta in E.
  destruct (truthy (ExperienceSpec.sub_name "company" fields)) eqn:Hc,
           (truthy (ExperienceSpec.sub_name "title" fields)) eqn:Ht;
    cbn [andb] in E; inversion E; subst.
  - apply (stripped_name_app (ExperienceSpec.sub_name "company" fields) " : "
                              (ExperienceSpec.sub_name "title" fields));
      apply sub_name_stripped; assumption.
  - apply sub_name_stripped, Hc.
  - apply sub_name_stripped, Ht.
Qed.

Lemma survivors_kept : forall items,
  Forall (fun s => stripped_name s /\ fullmatch re_phone s = false)
         (SkillsSpec.survivors items).
Proof.
  induction items as [|item items IH]; cbn [SkillsSpec.survivors]; [constructor|].
  destruct (SkillsSpec.kept item) as [s|] eqn:E; [|exact IH].
  constructor; [|exact IH].
  unfold SkillsSpec.kept in E. destruct item as [t| | | | | |]; try discriminate.
  destruct (truthy (strip t)) eqn:Ht; [|discriminate].
  destruct (fullmatch re_phone (strip t)) eqn:Hp; [discriminate|].
  inversion E; subst. repeat split; auto. apply StrFacts.strip_idem.
Qed.

(** The pieces between separators have no separator in them. *)
Lemma split_pieces : forall sep s,
  Forall (fun piece => all_chars (fun x => negb (Ascii.eqb x sep)) piece = true) (split sep s).
Proof.
  intros sep. induction s as [|c s IH]; [repeat constructor|].
  cbn [split]. destruct (Ascii.eqb c sep) eqn:E.
  - constructor; [reflexivity|exact IH].
  - destruct (split sep s) as [|p ps]; [repeat constructor; simpl; rewrite E; reflexivity|].
    inversion IH; subst. constructor; [|assumption].
    cbn [all_chars]. rewrite E. assumption.
Qed.

Lemma chars_bar_free : forall s,
  all_chars (fun a => negb (Ascii.eqb a "|")) s = true -> bar_free s = true.
Proof.
  intros s H. unfold bar_free. rewrite CleanerFacts.contains_char, H. reflexivity.
Qed.

(** What [ingest] stores for a list column is made of stripped, non-empty
    strings without a bar. *)
Lemma split_items_clean : forall text,
  Forall (fun item => stripped_name item /\ bar_free item = true) (Ingest.split_items text).
Proof.
  intros text. unfold Ingest.split_items.
  pose proof (split_pieces "|" text) as H.
  induction (split "|" text) as [|p ps IH]; [constructor|].
  inversion H; subst. cbn [filter].
  destruct (truthy (strip p)) eqn:Ht; [|auto].
  cbn [map]. constructor; [|auto].
  split; [split; [apply StrFacts.strip_idem|exact Ht]|].
  apply chars_bar_free, StrFacts.all_chars_strip. assumption.
Qed.

End ListFacts.

(** X5.  For every parsed experience list, the emitted strings are, in
    element order: for an element that is a mapping, ["company : title"]
    when both its [company] and its [title] are mappings with a string
    [name] that is not empty after stripping, the one of the two names that
    is so when only one is, and nothing otherwise; an element that is not a
    mapping emits nothing. *)
Theorem experience_results_entries : forall items : list pyobj,
  experience_results (PList items) = inr (ExperienceSpec.entries items).
Proof.
  intros items. unfold experience_results. cbn [py_iter bind ret].
  apply (ListFacts.experience_loop items []).
Qed.

(** X6.  For every parsed skills list, the skills kept are the string
    elements, stripped, in element order, without those that are empty
    after stripping and those that are a plus sign followed by 7 to 15
    digits; so no kept skill is empty, has a space at either end, or is
    such a phone number. *)
Theorem skills_list_survivors : forall items : list pyobj,
  skills_list (PList items) = inr (SkillsSpec.survivors items)
  /\ Forall (fun s => Str.strip s = s /\ Str.truthy s = true
                      /\ fullmatch re_phone s = false)
            (SkillsSpec.survivors items).
Proof.
  intros items. split.
  - unfold skills_list. cbn [py_iter bind ret]. apply (ListFacts.skills_loop items []).
  - pose proof (ListFacts.survivors_kept items) as H.
    induction H as [|s l [[Hs Ht] Hp] _ IH]; constructor; auto.
Qed.

(* ------------------------------------------------------------------ *)
(** ** More on the ingestion pipeline *)
(* ------------------------------------------------------------------ *)

Module DedupFacts.

Import Ingest.


Section Subset.

Variable subset : list string.

Let key := subset_key subset.






End Subset.



End DedupFacts.



Module DocFacts.

Import Ingest.

Section Docs.

Variable literal_eval : string -> Exc pyobj.

(** The document of a row, with the cleaned texts of its list columns. *)
Lemma row_doc_inv : forall row doc,
  row_doc (cleaners_table literal_eval) row = inr doc ->
  exists e x s,
    clean_education literal_eval (row_get_str row "education") = inr e
    /\ clean_experience literal_eval (row_get_str row "experience") = inr x
    /\ clean_skills literal_eval (row_get_str row "skills") = inr s
    /\ doc = [ ("full_name", Text (clean_full_name (row_get_str row "full_name")));
               ("job_title", Text (clean_job_title (row_get_str row "job_title")));
               ("industry", Text (clean_industry (row_get_str row "industry")));
               ("summary", Text (clean_summary (row_get_str row "summary")));
               ("location_country",
                Text (clean_location_country (row_get_str row "location_country")));
               ("education", Keywords (keyword_items e));
               ("experience", Keywords (keyword_items x));
               ("skills", Keywords (keyword_items s));
               ("job_summary", Text (clean_job_summary (row_get_str row "job_summary"))) ].
Proof.
  intros row doc Hdoc.
  destruct (Loops.clean_education_total literal_eval (row_get_str row "education")) as [e He].
  destruct (Loops.clean_experience_total literal_eval (row_get_str row "experience")) as [x Hx].
  destruct (Loops.clean_skills_total literal_eval (row_get_str row "skills")) as [s Hs].
  exists e, x, s. repeat (split; [assumption|]).
  rewrite (IngestFacts.row_doc_fields literal_eval row e x s He Hx Hs) in Hdoc.
  inversion Hdoc. reflexivity.
Qed.

Lemma keyword_items_clean : forall text,
  Forall (fun item => stripped_name item /\ bar_free item = true) (keyword_items text).
Proof.
  intros text. unfold keyword_items. destruct (Str.truthy text); [|constructor].
  apply ListFacts.split_items_clean.
Qed.

Lemma experience_extracted_spec : forall text,
  clean_experience literal_eval text
  = inr (Str.join " | " (experience_extracted literal_eval text))
  /\ Forall stripped_name (experience_extracted literal_eval text).
Proof.
  intros text. unfold clean_experience, experience_extracted.
  destruct (parsed_list literal_eval text) as [data|] eqn:E; [|split; [reflexivity|constructor]].
  destruct (Loops.parsed_list_is_list literal_eval _ _ E) as [items ->].
  unfold experience_results. cbn [py_iter bind ret].
  rewrite (ListFacts.experience_loop items []). split; [reflexivity|].
  apply ListFacts.entries_stripped.
Qed.

Lemma skills_extracted_spec : forall text,
  clean_skills literal_eval text
  = inr (Str.join " | " (skills_extracted literal_eval text))
  /\ Forall stripped_name (skills_extracted literal_eval text).
Proof.
  intros text. unfold clean_skills, skills_extracted.
  destruct (parsed_list literal_eval text) as [data|] eqn:E; [|split; [reflexivity|constructor]].
  destruct (Loops.parsed_list_is_list literal_eval _ _ E) as [items ->].
  unfold skills_list. cbn [py_iter bind ret].
  rewrite (ListFacts.skills_loop items []). split; [reflexivity|].
  pose proof (ListFacts.survivors_kept items) as H.
  induction H as [|s l [Hs _] _ IH]; constructor; auto.
Qed.

End Docs.

End DocFacts.

(** X8.  In every document [ingest] builds, each item stored under
    education, experience and skills is a non-empty string with no space
    at either end and no bar in it. *)
Theorem keyword_fields_items :
  forall (literal_eval : string -> Exc pyobj) (row : Ingest.Row) (doc : Ingest.Doc)
         (col : string),
    Ingest.row_doc (cleaners_table literal_eval) row = inr doc ->
    In col Ingest.KEYWORD_COLUMNS ->
    exists items,
      assoc col doc = Some (Ingest.Keywords items)
      /\ Forall (fun item => Str.truthy item = true
                             /\ Str.strip item = item
                             /\ Str.contains "|" item = false) items.
Proof.
  intros le row doc col Hdoc Hcol.
  destruct (DocFacts.row_doc_inv le row doc Hdoc) as (e & x & s & _ & _ & _ & ->).
  assert (Hclean : forall text,
             Forall (fun item => Str.truthy item = true /\ Str.strip item = item
                                 /\ Str.contains "|" item = false) (keyword_items text)).
  { intros text. pose proof (DocFacts.keyword_items_clean text) as H.
    induction H as [|i l [[Hs Ht] Hb] _ IH]; constructor; auto.
    repeat split; auto. unfold bar_free in Hb. apply negb_true_iff in Hb. exact Hb. }
  unfold Ingest.KEYWORD_COLUMNS in Hcol. simpl in Hcol.
  destruct Hcol as [<-|[<-|[<-|[]]]]; eexists; (split; [reflexivity|apply Hclean]).
Qed.

Lemma keyword_fields_items_witness :
  exists items,
    assoc "skills" IngestExamples.jane_doc = Some (Ingest.Keywords items)
    /\ Forall (fun item => Str.truthy item = true
                           /\ Str.strip item = item
                           /\ Str.contains "|" item = false) items.
Proof.
  apply (keyword_fields_items Literal.eval IngestExamples.jane IngestExamples.jane_doc "skills").
  - reflexivity.
  - simpl. tauto.
Defined.

(** X9.  The experience and skills fields of a document hold the emitted
    strings of [clean_experience] and the kept skills of [clean_skills], in
    order, whenever none of them has a bar in it. *)
Theorem experience_and_skills_fields :
  forall (literal_eval : string -> Exc pyobj) (row : Ingest.Row) (doc : Ingest.Doc),
    Ingest.row_doc (cleaners_table literal_eval) row = inr doc ->
    let emitted := experience_extracted literal_eval (Ingest.row_get_str row "experience") in
    let kept := skills_extracted literal_eval (Ingest.row_get_str row "skills") in
    (Forall (fun e => bar_free e = true) emitted ->
     assoc "experience" doc = Some (Ingest.Keywords emitted))
    /\ (Forall (fun s => bar_free s = true) kept ->
        assoc "skills" doc = Some (Ingest.Keywords kept)).
Proof.
  intros le row doc Hdoc emitted kept.
  destruct (DocFacts.row_doc_inv le row doc Hdoc) as (e & x & s & _ & Hx & Hs & ->).
  destruct (DocFacts.experience_extracted_spec le (Ingest.row_get_str row "experience"))
    as [Hx' Hxs].
  destruct (DocFacts.skills_extracted_spec le (Ingest.row_get_str row "skills"))
    as [Hs' Hss].
  rewrite Hx' in Hx. rewrite Hs' in Hs. inversion Hx; subst x. inversion Hs; subst s.
  split; intros Hbar; cbn [assoc String.eqb Ascii.eqb Bool.eqb]; do 2 f_equal;
    apply SplitFacts.split_items_join; assumption.
Qed.

Lemma experience_and_skills_fields_witness :
  assoc "experience" IngestExamples.jane_doc = Some (Ingest.Keywords ["Acme : CEO"])
  /\ assoc "skills" IngestExamples.jane_doc = Some (Ingest.Keywords ["Python"]).
Proof.
  destruct (experience_and_skills_fields Literal.eval IngestExamples.jane
              IngestExamples.jane_doc eq_refl) as [Hx Hs].
  split.
  - apply Hx. vm_compute. repeat constructor.
  - apply Hs. vm_compute. repeat constructor.
Defined.

(** X10.  Every document [ingest] builds has the nine columns as its
    fields, in the order of [columns]; the fields the search service
    matches as text hold a string, and those it matches as exact terms hold
    a list of strings. *)
Theorem document_shape :
  forall (literal_eval : string -> Exc pyobj) (row : Ingest.Row) (doc : Ingest.Doc),
    Ingest.row_doc (cleaners_table literal_eval) row = inr doc ->
    map fst doc = Ingest.columns
    /\ (forall col, In col Search.TEXT_COLUMNS ->
                    exists s, assoc col doc = Some (Ingest.Text s))
    /\ (forall col, In col Search.KEYWORD_COLUMNS ->
                    exists items, assoc col doc = Some (Ingest.Keywords items)).
Proof.
  intros le row doc Hdoc.
  destruct (DocFacts.row_doc_inv le row doc Hdoc) as (e & x & s & _ & _ & _ & ->).
  split; [reflexivity|]. split.
  - intros col Hcol. unfold Search.TEXT_COLUMNS in Hcol. simpl in Hcol.
    destruct Hcol as [<-|[<-|[<-|[<-|[<-|[<-|[]]]]]]]; eexists; reflexivity.
  - intros col Hcol. unfold Search.KEYWORD_COLUMNS in Hcol. simpl in Hcol.
    destruct Hcol as [<-|[<-|[<-|[]]]]; eexists; reflexivity.
Qed.

Lemma document_shape_witness :
  map fst IngestExamples.jane_doc = Ingest.columns
  /\ (exists s, assoc "summary" IngestExamples.jane_doc = Some (Ingest.Text s))
  /\ (exists items, assoc "education" IngestExamples.jane_doc = Some (Ingest.Keywords items)).
Proof.
  destruct (document_shape Literal.eval IngestExamples.jane IngestExamples.jane_doc eq_refl)
    as (Hk & Ht & Hl).
  split; [exact Hk|]. split.
  - apply Ht. simpl. tauto.
  - apply Hl. simpl. tauto.
Defined.

(** X11.  A cell the file leaves empty is read as NaN, and [ingest] cleans
    the text of [str] of it: the document holds the string ["nan"] under a
    text column, and the empty list under education, experience and
    skills. *)
Theorem missing_cell_indexed_as_nan :
  forall (literal_eval : string -> Exc pyobj) (row : Ingest.Row) (doc : Ingest.Doc)
         (col : string),
    Ingest.row_doc (cleaners_table literal_eval) row = inr doc ->
    assoc col (Ingest.row_items row) = Some Ingest.CNaN ->
    assoc col doc
    = Some (if mem col Ingest.KEYWORD_COLUMNS then Ingest.Keywords []
            else Ingest.Text "nan").
Proof.
  intros le row doc col Hdoc Hcell.
  destruct (DocFacts.row_doc_inv le row doc Hdoc) as (e & x & s & He & Hx & Hs & ->).
  destruct row as [c1 c2 c3 c4 c5 c6 c7 c8 c9].
  unfold Ingest.row_items in Hcell. cbn [assoc Ingest.r_full_name Ingest.r_job_title
    Ingest.r_industry Ingest.r_summary Ingest.r_location_country Ingest.r_education
    Ingest.r_experience Ingest.r_skills Ingest.r_job_summary] in Hcell.
  repeat match type of Hcell with
         | (if String.eqb ?k col then _ else _) = _ =>
             destruct (String.eqb_spec k col) as [<-|_];
             [inversion Hcell; subst; clear Hcell|]
         end;
    try discriminate Hcell;
    try reflexivity.
  - change (@inr exn string "" = inr e) in He. inversion He. reflexivity.
  - change (@inr exn string "" = inr x) in Hx. inversion Hx. reflexivity.
  - change (@inr exn string "" = inr s) in Hs. inversion Hs. reflexivity.
Qed.

Lemma missing_cell_indexed_as_nan_witness :
  let row := Ingest.mkRow (Ingest.CStr "Jane Doe") Ingest.CNaN (Ingest.CStr "Software")
               (Ingest.CStr "Loves tech") (Ingest.CStr "Germany") (Ingest.CStr "[]")
               (Ingest.CStr "[]") Ingest.CNaN (Ingest.CStr "Builds search engines") in
  exists doc,
    Ingest.row_doc (cleaners_table Literal.eval) row = inr doc
    /\ assoc "job_title" doc = Some (Ingest.Text "nan")
    /\ assoc "skills" doc = Some (Ingest.Keywords []).
Proof.
  intros row.
  destruct (IngestFacts.row_doc_total Literal.eval row) as [doc Hdoc].
  exists doc. split; [exact Hdoc|]. split.
  - apply (missing_cell_indexed_as_nan Literal.eval row doc "job_title" Hdoc). reflexivity.
  - apply (missing_cell_indexed_as_nan Literal.eval row doc "skills" Hdoc). reflexivity.
Defined.

(* ------------------------------------------------------------------ *)
(** ** More on the query builders *)
(* ------------------------------------------------------------------ *)

Module QueryFacts.

Import Search.

Lemma should_clauses_map : forall columns q acc,
  fold_left (fun clauses col =>
               if mem col TEXT_COLUMNS then clauses ++ [Match col q]
               else clauses ++ [Term col q]) columns acc
  = acc ++ map (fun col => clause_for col q) columns.
Proof.
  induction columns as [|col columns IH]; intros q acc; cbn [fold_left map].
  - rewrite app_nil_r. reflexivity.
  - assert (Hc : clause_for col q
                 = if mem col TEXT_COLUMNS then Match col q else Term col q)
      by reflexivity.
    rewrite Hc. destruct (mem col TEXT_COLUMNS); rewrite IH, <- app_assoc; reflexivity.
Qed.

Lemma must_clauses_map : forall field_queries acc,
  Forall declared (map fst field_queries) ->
  for_each must_clause field_queries acc
  = inr (acc ++ map (fun item => clause_for (fst item) (snd item)) field_queries).
Proof.
  induction field_queries as [|[f v] fq IH]; intros acc H; cbn [for_each map].
  - rewrite app_nil_r. reflexivity.
  - cbn [map] in H. inversion H as [|? ? Hf H']; subst. cbn [fst] in Hf.
    unfold declared in Hf. unfold must_clause at 1. rewrite Hf. cbn [negb fst snd].
    assert (Hc : clause_for f v = if mem f TEXT_COLUMNS then Match f v else Term f v)
      by reflexivity.
    rewrite Hc.
    destruct (mem f TEXT_COLUMNS); cbn [bind ret]; rewrite (IH _ H'), <- app_assoc;
      reflexivity.
Qed.

(** The keys of a dict after [d[k] = v]: a new key goes last, a key that is
    there stays where it is. *)
Lemma dict_set_key_list {V : Type} : forall (d : list (string * V)) k v,
  map fst (dict_set k v d)
  = if mem k (map fst d) then map fst d else map fst d ++ [k].
Proof.
  induction d as [|[k' v'] d IH]; intros k v; [reflexivity|].
  cbn [dict_set map fst mem existsb]. rewrite (String.eqb_sym k k').
  destruct (String.eqb_spec k' k) as [->|N]; [reflexivity|].
  cbn [map fst orb]. rewrite IH. unfold mem.
  destruct (existsb (String.eqb k) (map fst d)); reflexivity.
Qed.

Lemma dict_set_NoDup {V : Type} : forall (d : list (string * V)) k v,
  NoDup (map fst d) -> NoDup (map fst (dict_set k v d)).
Proof.
  intros d k v H. rewrite dict_set_key_list.
  destruct (mem k (map fst d)) eqn:E; [exact H|].
  apply NoDup_app; [exact H|repeat constructor; intros []|].
  intros x Hx [<-|[]]. apply SearchFacts.mem_In in Hx. congruence.
Qed.

Lemma fold_dict_set_NoDup : forall (cols : list string) (d : list (string * unit)),
  NoDup (map fst d) ->
  NoDup (map fst (fold_left (fun fields col => dict_set col tt fields) cols d)).
Proof.
  induction cols as [|c cols IH]; intros d H; cbn [fold_left]; [exact H|].
  apply IH, dict_set_NoDup, H.
Qed.

Lemma assoc_dict_set_same {V : Type} : forall (d : list (string * V)) k v,
  assoc k (dict_set k v d) = Some v.
Proof.
  induction d as [|[k' v'] d IH]; intros k v; cbn [dict_set assoc].
  - rewrite String.eqb_refl. reflexivity.
  - destruct (String.eqb k' k) eqn:E; cbn [assoc].
    + rewrite String.eqb_refl. reflexivity.
    + rewrite E. apply IH.
Qed.

Lemma assoc_dict_set_other {V : Type} : forall (d : list (string * V)) k v k',
  k' <> k -> assoc k' (dict_set k v d) = assoc k' d.
Proof.
  induction d as [|[k0 v0] d IH]; intros k v k' N; cbn [dict_set assoc].
  - destruct (String.eqb_spec k k'); [congruence|reflexivity].
  - destruct (String.eqb_spec k0 k) as [->|N0]; cbn [assoc].
    + destruct (String.eqb_spec k k'); [congruence|reflexivity].
    + destruct (String.eqb k0 k'); [reflexivity|]. apply IH, N.
Qed.

Lemma assoc_map_snd {V W : Type} (f : V -> W) : forall (d : list (string * V)) k,
  assoc k (map (fun kv => (fst kv, f (snd kv))) d) = option_map f (assoc k d).
Proof.
  induction d as [|[k0 v0] d IH]; intros k; [reflexivity|].
  cbn [map assoc fst snd]. destruct (String.eqb k0 k); [reflexivity|apply IH].
Qed.

End QueryFacts.

(** X12.  For declared columns, [search_columns] sends one clause per
    column of the request, in request order and once per occurrence: a
    match clause for a text column and a term clause for a keyword column,
    all with the query string, under [should] with [minimum_should_match]
    1.  [advanced_search] sends one such clause per field of the mapping,
    with the value of the field, under [must]. *)
Theorem query_clauses :
  forall es_search : Search.Body -> Exc Search.Response,
    (forall columns q size,
        Forall declared columns ->
        exists body,
          fst (Search.search_columns es_search columns q size) = [body]
          /\ Search.query body
             = Search.Should (map (fun col => clause_for col q) columns) 1)
    /\ (forall field_queries size,
        field_queries <> [] ->
        Forall declared (map fst field_queries) ->
        exists body,
          fst (Search.advanced_search es_search field_queries size) = [body]
          /\ Search.query body
             = Search.Must (map (fun item => clause_for (fst item) (snd item))
                                field_queries)).
Proof.
  intros es. split.
  - intros columns q size H.
    rewrite (SearchFacts.search_columns_valid es columns q size H).
    eexists. split; [reflexivity|]. cbn [Search.query or_body].
    rewrite QueryFacts.should_clauses_map. reflexivity.
  - intros fq size Hne H. unfold Search.advanced_search.
    destruct fq as [|item fq]; [congruence|].
    rewrite (QueryFacts.must_clauses_map (item :: fq) [] H).
    eexists. split; reflexivity.
Qed.

Lemma query_clauses_witness :
  (exists body,
      fst (Search.search_columns empty_store ["skills"; "full_name"; "skills"] "Python" None)
      = [body]
      /\ Search.query body
         = Search.Should [Search.Term "skills" "Python"; Search.Match "full_name" "Python";
                          Search.Term "skills" "Python"] 1)
  /\ (exists body,
      fst (Search.advanced_search empty_store [("summary", "ali"); ("skills", "python")] None)
      = [body]
      /\ Search.query body
         = Search.Must [Search.Match "summary" "ali"; Search.Term "skills" "python"]).
Proof.
  destruct (query_clauses empty_store) as [Hor Hand].
  split.
  - apply (Hor ["skills"; "full_name"; "skills"] "Python" None). repeat constructor.
  - apply (Hand [("summary", "ali"); ("skills", "python")] None);
      [discriminate|repeat constructor].
Defined.

(** X13.  The highlight directive names each column at most once, also
    when the request names a column several times. *)
Theorem highlight_fields_distinct : forall cols : list string,
  NoDup (map fst (Search.highlight_fields cols)).
Proof.
  intros cols. unfold Search.highlight_fields.
  apply QueryFacts.fold_dict_set_NoDup. constructor.
Qed.

(** X14.  A returned document is the stored document of the hit, with the
    fragments of the hit under ["_highlight"] when the hit has a highlight;
    any other field is as stored, and without a highlight nothing is
    added. *)
Theorem hit_result_fields : forall hit : Search.Hit,
  (forall h, Search.hit_highlight hit = Some h ->
             assoc "_highlight" (Search.hit_result hit) = Some (Search.Fragments h))
  /\ (Search.hit_highlight hit = None ->
      Search.hit_result hit
      = map (fun kv => (fst kv, Search.Stored (snd kv))) (Search._source hit))
  /\ (forall k, k <> "_highlight" ->
                assoc k (Search.hit_result hit)
                = option_map Search.Stored (assoc k (Search._source hit))).
Proof.
  intros hit. unfold Search.hit_result. split; [|split].
  - intros h ->. apply QueryFacts.assoc_dict_set_same.
  - intros ->. reflexivity.
  - intros k Hk. destruct (Search.hit_highlight hit).
    + rewrite QueryFacts.assoc_dict_set_other by exact Hk. apply QueryFacts.assoc_map_snd.
    + apply QueryFacts.assoc_map_snd.
Qed.

Lemma hit_result_fields_witness :
  let hit := Search.mkHit [("full_name", Ingest.Text "Jane Doe")]
                          (Some [("full_name", ["<em>Jane</em> Doe"])]) in
  assoc "_highlight" (Search.hit_result hit)
  = Some (Search.Fragments [("full_name", ["<em>Jane</em> Doe"])])
  /\ assoc "full_name" (Search.hit_result hit)
     = Some (Search.Stored (Ingest.Text "Jane Doe")).
Proof.
  intros hit. destruct (hit_result_fields hit) as (Hh & _ & Hk).
  split.
  - apply Hh. reflexivity.
  - apply (Hk "full_name"). discriminate.
Defined.

(** X15.  Either endpoint, on a request that passes the checks on its
    columns, calls the store once, with the given size or 10; when the
    store raises the endpoint raises the same exception; otherwise its
    reply has the total of the store and one returned document per hit, in
    the order of the store.  On a request that fails the checks it raises
    without calling the store. *)
Theorem endpoints_reply :
  forall es_search : Search.Body -> Exc Search.Response,
    (forall columns q size,
        Forall declared columns ->
        exists body,
          Search.size body = match size with Some n => n | None => 10%Z end
          /\ Main.search es_search columns q size
             = ([body],
                match es_search body with
                | inl e => inl e
                | inr resp =>
                    inr (Main.mkReply (Search.total resp)
                                      (map Search.hit_result (Search.hits resp)))
                end))
    /\ (forall payload size,
        payload <> [] ->
        Forall declared (map fst payload) ->
        exists body,
          Search.size body = match size with Some n => n | None => 10%Z end
          /\ Main.search_advanced es_search payload size
             = ([body],
                match es_search body with
                | inl e => inl e
                | inr resp =>
                    inr (Main.mkReply (Search.total resp)
                                      (map Search.hit_result (Search.hits resp)))
                end))
    /\ (forall columns q size,
        ~ Forall declared columns ->
        exists e, Main.search es_search columns q size = ([], inl e))
    /\ (forall payload size,
        payload = [] \/ ~ Forall declared (map fst payload) ->
        exists e, Main.search_advanced es_search payload size = ([], inl e)).
Proof.
  intros es. split; [|split; [|split]].
  - intros columns q size H. unfold Main.search.
    rewrite (SearchFacts.search_columns_valid es columns q _ H).
    exists (or_body columns q (Some (Search.arg 10%Z size))). split.
    + destruct size; reflexivity.
    + unfold Search.run_search, Main.reply.
      destruct (es (or_body columns q (Some (Search.arg 10%Z size)))); reflexivity.
  - intros payload size Hne H. unfold Main.search_advanced.
    destruct (SearchFacts.advanced_search_valid es payload
                (Some (Search.arg 10%Z size)) Hne H) as [clauses ->].
    match goal with
    | |- context [Search.run_search es ?b] => exists b
    end.
    split.
    + destruct size; reflexivity.
    + unfold Search.run_search, Main.reply.
      match goal with
      | |- context [es ?b] => destruct (es b); reflexivity
      end.
  - intros columns q size H. unfold Main.search.
    rewrite SearchFacts.search_columns_invalid.
    + eexists. reflexivity.
    + intros E. apply H, SearchFacts.invalid_columns_nil, E.
  - intros payload size [->|H]; [eexists; reflexivity|].
    unfold Main.search_advanced, Search.advanced_search.
    destruct payload as [|item payload]; [exfalso; apply H; constructor|].
    destruct (for_each Search.must_clause (item :: payload) []) as [e|clauses] eqn:E.
    + eexists. reflexivity.
    + exfalso. apply H. clear H.
      revert E. generalize (@nil Search.Clause). generalize (item :: payload). clear.
      induction l as [|[f v] fq IH]; intros acc E; [constructor|].
      cbn [for_each] in E. unfold Search.must_clause at 1 in E.
      destruct (mem f Search.ALL_COLUMNS) eqn:Hf; cbn [negb] in E; [|discriminate].
      cbn [map fst]. constructor; [exact Hf|].
      destruct (mem f Search.TEXT_COLUMNS); cbn [bind ret] in E; eapply IH; exact E.
Qed.

Lemma endpoints_reply_witness :
  (exists body,
      Search.size body = 5%Z
      /\ Main.search empty_store ["full_name"] "randall evans" (Some 5%Z)
         = ([body], inr (Main.mkReply 0%Z [])))
  /\ (exists e, Main.search_advanced empty_store [("age", "41")] None = ([], inl e)).
Proof.
  destruct (endpoints_reply empty_store) as (Hs & _ & _ & Hbad).
  split.
  - apply (Hs ["full_name"] "randall evans" (Some 5%Z)). repeat constructor.
  - apply Hbad. right. intros H. inversion H. discriminate.
Defined.

(* ------------------------------------------------------------------ *)
(** ** The index after [recreate_index] and [ingest] *)
(* ------------------------------------------------------------------ *)

Module IndexFacts.

Import IngestIndex.

Lemma assoc_remove : forall (st : Es.State) name k,
  assoc k (Es.remove name st) = if String.eqb name k then None else assoc k st.
Proof.
  induction st as [|[n ix] st IH]; intros name k; cbn [Es.remove assoc].
  - destruct (String.eqb name k); reflexivity.
  - destruct (String.eqb_spec n name) as [->|N].
    + rewrite IH. destruct (String.eqb name k); reflexivity.
    + cbn [assoc]. rewrite IH. destruct (String.eqb_spec n k) as [->|N']; [|reflexivity].
      destruct (String.eqb_spec name k); [congruence|reflexivity].
Qed.

Lemma assoc_app_new {V : Type} : forall (d : list (string * V)) name v k,
  assoc name d = None ->
  assoc k (d ++ [(name, v)]) = if String.eqb name k then Some v else assoc k d.
Proof.
  induction d as [|[n x] d IH]; intros name v k H; cbn [app assoc] in *.
  - reflexivity.
  - destruct (String.eqb_spec n name) as [->|N]; [discriminate|].
    rewrite (IH name v k H).
    destruct (String.eqb_spec n k) as [->|N']; [|reflexivity].
    destruct (String.eqb_spec name k); [congruence|reflexivity].
Qed.

(** [es.index] on an index that is there appends the document to it and
    leaves the other indices alone. *)
Lemma index_appends : forall (st : Es.State) name doc ix,
  assoc name st = Some ix ->
  exists st',
    Es.index name doc st = inr st'
    /\ assoc name st' = Some (Es.mkIndex (Es.mappings ix) (Es.documents ix ++ [doc]))
    /\ (forall k, k <> name -> assoc k st' = assoc k st).
Proof.
  induction st as [|[n x] st IH]; intros name doc ix H; cbn [assoc Es.index] in *.
  - discriminate.
  - destruct (String.eqb_spec n name) as [->|N].
    + inversion H; subst. eexists. split; [reflexivity|]. split.
      * cbn [assoc]. rewrite String.eqb_refl. reflexivity.
      * intros k Hk. cbn [assoc]. destruct (String.eqb_spec name k); [congruence|reflexivity].
    + destruct (IH name doc ix H) as (st' & -> & Hn & Hk).
      eexists. split; [reflexivity|]. split.
      * cbn [assoc]. destruct (String.eqb_spec n name); [congruence|]. exact Hn.
      * intros k Hkn. cbn [assoc]. destruct (String.eqb n k); [reflexivity|]. apply Hk, Hkn.
Qed.

Section Rows.

Variable literal_eval : string -> Exc pyobj.

Lemma index_rows_into_appends : forall df (st : Es.State) ix,
  assoc INDEX_NAME st = Some ix ->
  assoc INDEX_NAME (index_rows_into (cleaners_table literal_eval) df st)
  = Some (Es.mkIndex (Es.mappings ix)
            (Es.documents ix ++ Ingest.index_rows (cleaners_table literal_eval) df))
  /\ (forall k, k <> INDEX_NAME ->
                assoc k (index_rows_into (cleaners_table literal_eval) df st) = assoc k st).
Proof.
  induction df as [|row df IH]; intros st ix H; cbn [index_rows_into Ingest.index_rows].
  - rewrite app_nil_r. destruct ix. split; [exact H|reflexivity].
  - destruct (IngestFacts.row_doc_total literal_eval row) as [doc Hdoc]. rewrite Hdoc.
    cbn [bind].
    destruct (index_appends st INDEX_NAME doc ix H) as (st' & -> & Hn & Hk).
    destruct (IH st' _ Hn) as [IHn IHk]. cbn [Es.mappings Es.documents] in IHn.
    split.
    + rewrite IHn, <- app_assoc. reflexivity.
    + intros k Hkn. rewrite (IHk k Hkn). apply Hk, Hkn.
Qed.

End Rows.

Lemma recreate_index_state : forall st : Es.State,
  exists st',
    recreate_index st = inr st'
    /\ assoc INDEX_NAME st' = Some (Es.mkIndex INDEX_MAPPINGS [])
    /\ (forall k, k <> INDEX_NAME -> assoc k st' = assoc k st).
Proof.
  intros st. unfold recreate_index, Es.delete, Es.create.
  destruct (Es.exists_ INDEX_NAME st) eqn:E; cbn [bind ret].
  - assert (Hgone : assoc INDEX_NAME (Es.remove INDEX_NAME st) = None).
    { rewrite assoc_remove, String.eqb_refl. reflexivity. }
    unfold Es.exists_ at 1. rewrite Hgone.
    eexists. split; [reflexivity|]. split.
    + rewrite (assoc_app_new _ _ _ _ Hgone), String.eqb_refl. reflexivity.
    + intros k Hk. rewrite (assoc_app_new _ _ _ _ Hgone), assoc_remove.
      destruct (String.eqb_spec INDEX_NAME k); [congruence|reflexivity].
  - rewrite E. unfold Es.exists_ in E.
    destruct (assoc INDEX_NAME st) eqn:Ha; [discriminate|].
    eexists. split; [reflexivity|]. split.
    + rewrite (assoc_app_new _ _ _ _ Ha), String.eqb_refl. reflexivity.
    + intros k Hk. rewrite (assoc_app_new _ _ _ _ Ha).
      destruct (String.eqb_spec INDEX_NAME k); [congruence|reflexivity].
Qed.

End IndexFacts.

(** X16.  Whatever indices the cluster has, [recreate_index] does not
    raise; it leaves the index [linkedin_profiles] with the declared
    mappings and no document, and the other indices as they were.  The
    mappings give the type [keyword] to the columns the search service
    queries by exact term, and [text] to those it queries by match. *)
Theorem recreate_index_fresh :
  (forall st : Es.State,
      exists st',
        IngestIndex.recreate_index st = inr st'
        /\ assoc IngestIndex.INDEX_NAME st'
           = Some (Es.mkIndex IngestIndex.INDEX_MAPPINGS [])
        /\ (forall k, k <> IngestIndex.INDEX_NAME -> assoc k st' = assoc k st))
  /\ (forall col,
        (assoc col IngestIndex.INDEX_MAPPINGS = Some "keyword"
         <-> In col Search.KEYWORD_COLUMNS)
        /\ (assoc col IngestIndex.INDEX_MAPPINGS = Some "text"
            <-> In col Search.TEXT_COLUMNS)).
Proof.
  split; [apply IndexFacts.recreate_index_state|].
  intros col. unfold IngestIndex.INDEX_MAPPINGS, Search.KEYWORD_COLUMNS, Search.TEXT_COLUMNS.
  cbn [assoc In].
  repeat match goal with
         | |- context [String.eqb ?k col] =>
             destruct (String.eqb_spec k col) as [<-|?]
         end;
    (split; split; intros H;
     try discriminate H; try reflexivity;
     try (repeat (destruct H as [H|H]; try discriminate H); try contradiction; fail);
     try tauto).
Qed.

(** X17.  Whatever the cluster holds before, [ingest] leaves the index
    [linkedin_profiles] with the declared mappings and exactly the
    documents of the distinct rows of the frame, in row order; the other
    indices are as they were. *)
Theorem ingest_replaces_index :
  forall (literal_eval : string -> Exc pyobj) (df : list Ingest.Row) (st : Es.State),
  exists st' docs,
    IngestIndex.ingest_into literal_eval df st = inr st'
    /\ Ingest.ingest literal_eval df = inr docs
    /\ assoc IngestIndex.INDEX_NAME st'
       = Some (Es.mkIndex IngestIndex.INDEX_MAPPINGS docs)
    /\ (forall k, k <> IngestIndex.INDEX_NAME -> assoc k st' = assoc k st).
Proof.
  intros le df st. unfold IngestIndex.ingest_into, Ingest.ingest.
  destruct (IndexFacts.recreate_index_state st) as (st0 & -> & Hn & Hk).
  rewrite IngestFacts.cleaners_for_columns. cbn [bind ret].
  destruct (IndexFacts.index_rows_into_appends le
              (Ingest.drop_duplicates Ingest.columns df) st0 _ Hn) as [Hn' Hk'].
  eexists. eexists. split; [reflexivity|]. split; [reflexivity|]. split.
  - rewrite Hn'. reflexivity.
  - intros k Hkn. rewrite (Hk' k Hkn). apply Hk, Hkn.
Qed.

(* ------------------------------------------------------------------ *)
(** ** The files of export_text.py *)
(* ------------------------------------------------------------------ *)

Module ExportFacts.

Import ExportText.
Local Open Scope string_scope.




Section OneColumn.

Variable literal_eval : string -> Exc pyobj.


End OneColumn.

End ExportFacts.


